(** * monitor_compat: the exception-to-legacy-value adapter over [monitor]

    A shallow embedding of [monitor_compact.py].  Every function of the
    module forwards one call to the strict [monitor] module and turns what
    that call raises into the value older callers expect.  The embedding
    keeps the three ingredients of the source apart:

    - Python values and exceptions ([pyval], [exc]);
    - the collaborator, an unseen module reached by name ([Monitor]);
    - the adapter's own code, written in a state-and-exception monad [M]
      whose state holds the two module globals and the collaborator's
      state. *)

From Stdlib Require Import String List ZArith Lia Bool.
Import ListNotations.
Local Open Scope string_scope.
Local Open Scope Z_scope.

Set Implicit Arguments.
Set Warnings "-register-all".

(** ** Python values *)

(** The values that cross the adapter boundary.  A [dict] is kept as an
    association list in insertion order (its keys are strings everywhere
    in this module).  A [str] is kept as its UTF-8 encoding.  [VObj]
    stands for an object known by its identity only, which the adapter
    passes along without looking inside: an HTTP response, a date, a
    function, a module, or a mutable object that the collaborator keeps
    and changes in its own state (its content is then the collaborator's
    to tell, see [mon_content]).  What [len] and [.get] do on such an
    object is not part of the value model: the statements below about
    [len] and [.get] are made for plain values. *)
Inductive pyval : Type :=
| VNone
| VBool (b : bool)
| VInt (z : Z)
| VStr (s : string)
| VList (l : list pyval)
| VTuple (l : list pyval)
| VDict (d : list (string * pyval))
| VObj (id : string).

(** [isinstance(v, tuple)] *)
Definition is_tuple (v : pyval) : bool :=
  match v with VTuple _ => true | _ => false end.

(** [d[k]] on the association list of a dict: the first binding of [k]. *)
Fixpoint assoc_get (k : string) (d : list (string * pyval)) : option pyval :=
  match d with
  | [] => None
  | (k', v) :: d' => if String.eqb k k' then Some v else assoc_get k d'
  end.

(** The code points of a string in UTF-8: every byte but the continuation
    bytes [10xxxxxx] starts one. *)
Definition is_continuation_byte (a : Ascii.ascii) : bool :=
  let n := Ascii.nat_of_ascii a in
  (Nat.leb 128 n && Nat.ltb n 192)%bool.

Fixpoint code_points (s : string) : nat :=
  match s with
  | EmptyString => O
  | String a s' => ((if is_continuation_byte a then 0 else 1) + code_points s')%nat
  end.

(** What [len] counts, where the value has a length: the code points of a
    string, the elements of a list or tuple, the keys of a dict. *)
Definition seq_length (v : pyval) : option Z :=
  match v with
  | VStr s => Some (Z.of_nat (code_points s))
  | VList l => Some (Z.of_nat (List.length l))
  | VTuple l => Some (Z.of_nat (List.length l))
  | VDict d => Some (Z.of_nat (List.length d))
  | _ => None
  end.

(** [isinstance(v, tuple) and len(v) == n] *)
Definition is_tuple_of_len (v : pyval) (n : Z) : bool :=
  is_tuple v && match seq_length v with Some k => k =? n | None => false end.

(** [len] of a list, a tuple or a dict. *)
Definition container_length (v : pyval) : option Z :=
  match v with
  | VList l | VTuple l => Some (Z.of_nat (List.length l))
  | VDict d => Some (Z.of_nat (List.length d))
  | _ => None
  end.

(** The plain values that have no [get] method, and those that have no
    [len]. *)
Definition lacks_get (v : pyval) : bool :=
  match v with
  | VNone | VBool _ | VInt _ | VStr _ | VList _ | VTuple _ => true
  | VDict _ | VObj _ => false
  end.

Definition lacks_len (v : pyval) : bool :=
  match v with
  | VNone | VBool _ | VInt _ => true
  | _ => false
  end.

Definition is_object (v : pyval) : bool :=
  match v with VObj _ => true | _ => false end.

(** ** Exceptions *)

(** Modelled from the spec: the exception classes of the [monitor] module,
    which is not part of the sources.  The spec (sections 6 and 7) gives
    the taxonomy: three distinguished, unrelated kinds (timeout, fetch,
    parse) and everything else unclassified.  [BuiltinError n] is any other
    subclass of [Exception], named [n] ("RuntimeError", "TypeError",
    "AttributeError", ...). *)
Inductive exc_class : Type :=
| ProwTimeoutError
| ProwFetchError
| ProwParseError
| BuiltinError (name : string).

(** An exception: its class and its message.  Exceptions outside
    [Exception] ([KeyboardInterrupt], [SystemExit]), which no clause of
    this module catches, and the [__context__] chain of an exception
    raised inside a handler are not represented. *)
Record exc : Type := mkExc { exc_type : exc_class; exc_msg : string }.

Definition RuntimeError (msg : string) : exc :=
  mkExc (BuiltinError "RuntimeError") msg.
Definition TypeError (msg : string) : exc :=
  mkExc (BuiltinError "TypeError") msg.
Definition AttributeError (msg : string) : exc :=
  mkExc (BuiltinError "AttributeError") msg.

(** The class named in an [except] clause or in [isinstance(exc, C)]. *)
Inductive exc_pattern : Type :=
| EProwTimeoutError
| EProwFetchError
| EProwParseError
| EException.

(** [isinstance(e, C)] *)
Definition isinstance_exc (e : exc) (c : exc_pattern) : bool :=
  match c, exc_type e with
  | EProwTimeoutError, ProwTimeoutError => true
  | EProwFetchError, ProwFetchError => true
  | EProwParseError, ProwParseError => true
  | EException, _ => true
  | _, _ => false
  end.

(** The four failure kinds of the spec's taxonomy. *)
Inductive failure_kind : Type :=
| TimeoutFailure | FetchFailure | ParseFailure | UnclassifiedFailure.

Definition kind_of (e : exc) : failure_kind :=
  match exc_type e with
  | ProwTimeoutError => TimeoutFailure
  | ProwFetchError => FetchFailure
  | ProwParseError => ParseFailure
  | BuiltinError _ => UnclassifiedFailure
  end.

(** ** Outcomes, the collaborator and the adapter's state *)

Inductive outcome (A : Type) : Type :=
| Returned (a : A)
| Raised (e : exc).
Arguments Returned {A} a.
Arguments Raised {A} e.

Definition kwargs : Type := list (string * pyval).

(** The collaborator.  The adapter reaches it in two ways only: it calls a
    function of the module by name, [monitor.f(args, kw=...)], and it reads
    an attribute, [monitor.name] or [getattr(monitor, name)].  A call may
    change the collaborator's own state [MS], and with it the content of
    the mutable objects the collaborator keeps: [mon_content id ms] is what
    the object [VObj id] holds in the state [ms], for those objects whose
    content is a value of the model.  The names of the adapter's globals
    are out of the collaborator's reach; the objects they are bound to are
    not. *)
Record Monitor (MS : Type) : Type := mkMonitor {
  mon_call : string -> list pyval -> kwargs -> MS -> outcome pyval * MS;
  mon_getattr : string -> MS -> outcome pyval;
  mon_content : string -> MS -> option pyval
}.

(** The two module globals of the adapter: what each name is bound to.
    [final_job_list = monitor.final_job_list] binds the name to the
    collaborator's own list object, a [VObj] when the collaborator changes
    that list in place. *)
Record globals : Type := mkGlobals {
  PROW_URL : pyval;
  final_job_list : pyval
}.

Record world (MS : Type) : Type := mkWorld {
  adapter : globals;
  collaborator : MS
}.

(** What a reader finds in the object a name is bound to, in the
    collaborator's state [ms]: the content of a collaborator's object, the
    value itself otherwise. *)
Definition seen {MS} (monitor : Monitor MS) (ms : MS) (v : pyval) : pyval :=
  match v with
  | VObj id => match mon_content monitor id ms with Some c => c | None => v end
  | _ => v
  end.

Section Adapter.

Context {MS : Type}.
Variable monitor : Monitor MS.

(** ** The monad of the adapter's code *)

Definition M (A : Type) : Type := world MS -> outcome A * world MS.

Definition ret {A} (a : A) : M A := fun w => (Returned a, w).

Definition raise {A} (e : exc) : M A := fun w => (Raised e, w).

Definition bind {A B} (m : M A) (k : A -> M B) : M B :=
  fun w =>
    match m w with
    | (Returned a, w') => k a w'
    | (Raised e, w') => (Raised e, w')
    end.

Notation "x <- m ;; k" := (bind m (fun x => k))
  (at level 61, m at next level, right associativity).

(** One [except C as e: handler] clause. *)
Definition handler (A : Type) : Type := (exc_pattern * (exc -> M A))%type.

(** The first clause, in source order, whose class the exception is an
    instance of. *)
Fixpoint find_handler {A} (e : exc) (hs : list (handler A)) : option (exc -> M A) :=
  match hs with
  | [] => None
  | (c, h) :: hs' => if isinstance_exc e c then Some h else find_handler e hs'
  end.

(** [try: body  except ...: ...]: the handler runs in the state the body
    left behind; an exception no clause matches goes on to the caller. *)
Definition try_except {A} (body : M A) (hs : list (handler A)) : M A :=
  fun w =>
    match body w with
    | (Returned a, w') => (Returned a, w')
    | (Raised e, w') =>
        match find_handler e hs with
        | Some h => h e w'
        | None => (Raised e, w')
        end
    end.

(** [monitor.f(args..., kw=...)] *)
Definition call (f : string) (args : list pyval) (kw : kwargs) : M pyval :=
  fun w =>
    let (r, ms) := mon_call monitor f args kw (collaborator w) in
    (r, mkWorld (adapter w) ms).

(** [monitor.name] and [getattr(monitor, name)] *)
Definition getattr_monitor (name : string) : M pyval :=
  fun w => (mon_getattr monitor name (collaborator w), w).

(** [global PROW_URL; PROW_URL = v] and the same for [final_job_list]. *)
Definition set_PROW_URL (v : pyval) : M unit :=
  fun w => (Returned tt,
            mkWorld (mkGlobals v (final_job_list (adapter w))) (collaborator w)).

Definition set_final_job_list (v : pyval) : M unit :=
  fun w => (Returned tt,
            mkWorld (mkGlobals (PROW_URL (adapter w)) v) (collaborator w)).

(** [len(v)]: defined on strings, lists, tuples and dicts; a [TypeError]
    on the rest. *)
Definition py_len (v : pyval) : M Z :=
  match seq_length v with
  | Some n => ret n
  | None => raise (TypeError "object has no len()")
  end.

(** [v.get(k, default)]: the dict method; an [AttributeError] on a value
    that has no [get], which a [VObj] is taken to be. *)
Definition py_get (v : pyval) (k : string) (default : pyval) : M pyval :=
  match v with
  | VDict d => ret (match assoc_get k d with Some x => x | None => default end)
  | _ => raise (AttributeError "object has no attribute 'get'")
  end.


(** ** The adapter's functions, in source order *)

(** Module load, lines 11-26: both globals start as [None], then
    [_sync_module_attrs] mirrors the collaborator's attributes. *)
Definition _sync_module_attrs : M unit :=
  _ <- try_except (v <- getattr_monitor "PROW_URL" ;; set_PROW_URL v)
         [(EException, fun _ => set_PROW_URL VNone)] ;;
  try_except (v <- getattr_monitor "final_job_list" ;; set_final_job_list v)
    [(EException, fun _ => set_final_job_list (VList []))].

Definition module_load (ms : MS) : outcome unit * world MS :=
  _sync_module_attrs (mkWorld (mkGlobals VNone VNone) ms).

Definition _err_str_from_exc (e : exc) : string :=
  if isinstance_exc e EProwTimeoutError then "Request timed out"
  else if isinstance_exc e EProwFetchError then "Error while sending request to url"
  else if isinstance_exc e EProwParseError then "ERROR"
  else "ERROR".

(** [except Exception as e: return _err_str_from_exc(e)] *)
Definition return_err_str : list (handler pyval) :=
  [(EException, fun e => ret (VStr (_err_str_from_exc e)))].

Definition fetch_release_date (release : string) : M pyval :=
  try_except (call "fetch_release_date" [VStr release] []) return_err_str.

Definition fetch_build_time (url : string) : M pyval :=
  try_except (call "fetch_build_time" [VStr url] []) return_err_str.

Definition set_prow_url (ci_job_type : string) : M pyval :=
  call "set_prow_url" [VStr ci_job_type] [].

Definition load_config (config_file : string) : M pyval :=
  call "load_config" [VStr config_file] [].

Definition get_current_date : M pyval :=
  call "get_current_date" [] [].

Definition parse_job_date (date : string) : M pyval :=
  call "parse_job_date" [VStr date] [].

Definition get_jobs (prow_link : string) : M pyval :=
  try_except (call "get_jobs" [VStr prow_link] []) return_err_str.

Definition get_n_recent_jobs (prow_link : string) (n : Z) : M pyval :=
  try_except (call "get_n_recent_jobs" [VStr prow_link; VInt n] []) return_err_str.

Definition check_job_status (spy_link : string) : M pyval :=
  try_except (call "check_job_status" [VStr spy_link] []) return_err_str.

Definition cluster_deploy_status (spy_link : string) : M pyval :=
  try_except (call "cluster_deploy_status" [VStr spy_link] []) return_err_str.

Definition cluster_creation_error_analysis (spylink : string) : M pyval :=
  try_except (call "cluster_creation_error_analysis" [VStr spylink] []) return_err_str.

Definition check_if_gather_libvirt_dir_exists (spy_link job_type : string) : M pyval :=
  try_except
    (call "check_if_gather_libvirt_dir_exists" [VStr spy_link; VStr job_type] [])
    return_err_str.

Definition check_hypervisor_error (spy_link : string) : M pyval :=
  try_except (call "check_hypervisor_error" [VStr spy_link] []) return_err_str.

Definition check_if_sensitive_info_exposed (spy_link : string) : M pyval :=
  try_except (call "check_if_sensitive_info_exposed" [VStr spy_link] [])
    [(EException, fun e =>
        raise (RuntimeError
                 ("Error in check_if_sensitive_info_exposed: " ++ _err_str_from_exc e)))].

Definition get_node_status (spy_link : string) : M pyval :=
  try_except (call "get_node_status" [VStr spy_link] []) return_err_str.

Definition check_node_crash (spy_link : string) : M pyval :=
  try_except (call "check_node_crash" [VStr spy_link] []) return_err_str.

Definition get_lease (build_log_response : pyval) (job_platform : string) : M pyval :=
  try_except (call "get_lease" [build_log_response; VStr job_platform] [])
    [(EException, fun _ => ret (VStr "Failed to fetch lease information"))].

Definition get_nightly (build_log_url : string) (build_log_response : pyval)
    (job_platform : string) : M pyval :=
  try_except
    (call "get_nightly" [VStr build_log_url; build_log_response; VStr job_platform] [])
    [(EException, fun _ =>
        ret (VStr ("Unable to fetch nightly " ++ job_platform
                   ++ " information - No match found")))].

Definition get_quota_and_nightly (spy_link : string) : M pyval :=
  try_except (call "get_quota_and_nightly" [VStr spy_link] [])
    [(EProwTimeoutError, fun _ => ret (VTuple [VStr "Request timed out"; VNone]));
     (EProwFetchError, fun _ =>
        ret (VTuple [VStr "Error while sending request to url"; VNone]));
     (EException, fun _ =>
        ret (VTuple [VStr "Failed to fetch lease information"; VNone]))].

Definition job_classifier (spy_link : string) : M pyval :=
  call "job_classifier" [VStr spy_link] [].

Definition get_failed_monitor_testcases (spy_link job_type : string) : M pyval :=
  try_except
    (tcs <- call "get_failed_monitor_testcases" [VStr spy_link; VStr job_type] [] ;;
     if is_tuple tcs then ret tcs else ret (VTuple [tcs; VNone]))
    [(EProwTimeoutError, fun _ => ret (VTuple [VList []; VStr "Request timed out"]));
     (EProwFetchError, fun _ =>
        ret (VTuple [VList []; VStr "Failed to get response from e2e-test directory url"]));
     (EProwParseError, fun _ =>
        ret (VTuple [VList []; VStr "Failed to parse the data from e2e-test log file!"]));
     (EException, fun _ =>
        ret (VTuple [VList []; VStr "Failed to parse the data from e2e-test log file!"]))].

Definition get_failed_monitor_testcases_from_xml (spy_link job_type : string) : M pyval :=
  try_except
    (tcs <- call "get_failed_monitor_testcases_from_xml" [VStr spy_link; VStr job_type] [] ;;
     ret (VTuple [tcs; VNone]))
    [(EProwTimeoutError, fun _ => ret (VTuple [VList []; VStr "Request timed out"]));
     (EProwFetchError, fun _ =>
        ret (VTuple [VList []; VStr "Failed to get response from e2e-test directory url"]));
     (EProwParseError, fun _ =>
        ret (VTuple [VList []; VStr "Failed to parse junit e2e log file!"]));
     (EException, fun _ => ret (VTuple [VList []; VStr "Monitor test file not found"]))].

(** A parameter with a default value: [None] stands for an argument the
    caller left out. *)
Definition arg_or (default : pyval) (a : option pyval) : pyval :=
  match a with Some v => v | None => default end.

Definition get_testcase_frequency (spylinks : pyval) (zone tc_name : option pyval)
    : M pyval :=
  let zone := arg_or VNone zone in
  let tc_name := arg_or VNone tc_name in
  try_except (call "get_testcase_frequency" [spylinks; zone; tc_name] [])
    [(EException, fun _ => ret (VDict []))].

Definition get_failed_e2e_testcases (spy_link job_type : string) : M pyval :=
  try_except
    (tcs <- call "get_failed_e2e_testcases" [VStr spy_link; VStr job_type] [] ;;
     ret (VTuple [tcs; VNone]))
    [(EProwTimeoutError, fun _ => ret (VTuple [VList []; VStr "Request timed out"]));
     (EProwFetchError, fun _ =>
        ret (VTuple [VList []; VStr "Failed to get response from e2e-test directory url"]));
     (EProwParseError, fun _ =>
        ret (VTuple [VList []; VStr "Failed to parse the data from e2e-test log file!"]));
     (EException, fun _ => ret (VTuple [VList []; VStr "Test summary file not found"]))].

Definition get_junit_symptom_detection_testcase_failures (spy_link job_type : string)
    : M pyval :=
  try_except
    (tcs <- call "get_junit_symptom_detection_testcase_failures"
              [VStr spy_link; VStr job_type] [] ;;
     ret (VTuple [tcs; VNone]))
    [(EProwTimeoutError, fun _ => ret (VTuple [VList []; VStr "Request timed out"]));
     (EProwFetchError, fun _ =>
        ret (VTuple [VList []; VStr "Error while sending request to url"]));
     (EProwParseError, fun _ =>
        ret (VTuple [VList []; VStr "Failed to parse symptom detection e2e log file!"]));
     (EException, fun _ =>
        ret (VTuple [VList []; VStr "Junit test summary file not found"]))].

(** The error object of [get_all_failed_tc]: one entry per test family. *)
Definition error_object_of (v : pyval) : pyval :=
  VDict [("conformance", v); ("monitor", v); ("symptom_detection", v)].

Definition get_all_failed_tc (spylink jobtype : string) : M pyval :=
  try_except
    (failed_tc <- call "get_all_failed_tc" [VStr spylink; VStr jobtype] [] ;;
     if is_tuple_of_len failed_tc 3 then ret failed_tc
     else
       let failed_tc_dict := failed_tc in
       conformance <- py_get failed_tc_dict "conformance" (VList []) ;;
       monitor_list <- py_get failed_tc_dict "monitor" (VList []) ;;
       symptom <- py_get failed_tc_dict "symptom_detection" (VList []) ;;
       n1 <- py_len conformance ;;
       n2 <- py_len monitor_list ;;
       n3 <- py_len symptom ;;
       let failed_tc_count := n1 + n2 + n3 in
       let error_object := error_object_of VNone in
       ret (VTuple [failed_tc_dict; VInt failed_tc_count; error_object]))
    [(EProwTimeoutError, fun _ =>
        ret (VTuple [VDict []; VInt 0; error_object_of (VStr "Request timed out")]));
     (EProwFetchError, fun _ =>
        ret (VTuple [VDict []; VInt 0;
                     error_object_of (VStr "Error while sending request to url")]));
     (EProwParseError, fun _ =>
        ret (VTuple [VDict []; VInt 0;
                     error_object_of (VStr "Failed to parse the data from e2e-test log file!")]));
     (EException, fun _ =>
        ret (VTuple [VDict []; VInt 0;
                     error_object_of (VStr "Test summary file not found")]))].

(** The four clauses shared by the functions that spell the generic strings
    out instead of calling [_err_str_from_exc]. *)
Definition return_generic_strings : list (handler pyval) :=
  [(EProwTimeoutError, fun _ => ret (VStr "Request timed out"));
   (EProwFetchError, fun _ => ret (VStr "Error while sending request to url"));
   (EProwParseError, fun _ => ret (VStr "ERROR"));
   (EException, fun _ => ret (VStr "ERROR"))].

Definition check_ts_exe_status (spylink jobtype : string) : M pyval :=
  try_except (call "check_ts_exe_status" [VStr spylink; VStr jobtype] [])
    return_generic_strings.

Definition print_all_failed_tc (spylink jobtype : string) : M pyval :=
  try_except (call "print_all_failed_tc" [VStr spylink; VStr jobtype] [])
    return_generic_strings.

Definition check_testcase_failure (spylink job_type testcase_name : string) : M pyval :=
  try_except
    (call "check_testcase_failure" [VStr spylink; VStr job_type; VStr testcase_name] [])
    [(EException, fun _ => ret (VBool false))].

Definition get_jobs_with_date (prowci_url : string) (start_date end_date : pyval)
    : M pyval :=
  try_except (call "get_jobs_with_date" [VStr prowci_url; start_date; end_date] [])
    return_generic_strings.

Definition get_next_page_first_build_date (ci_next_page_spylink : string)
    (end_date : pyval) : M pyval :=
  try_except
    (call "get_next_page_first_build_date" [VStr ci_next_page_spylink; end_date] [])
    return_generic_strings.

Definition get_brief_job_info (build_list prow_ci_name : pyval) (zone : option pyval)
    : M pyval :=
  let zone := arg_or VNone zone in
  try_except (call "get_brief_job_info" [build_list; prow_ci_name] [("zone", zone)])
    [(EProwTimeoutError, fun _ => ret (VList []));
     (EProwFetchError, fun _ => ret (VList []));
     (EProwParseError, fun _ => ret (VList []));
     (EException, fun _ => ret (VList []))].

Definition get_detailed_job_info (build_list prow_ci_name : pyval) (zone : option pyval)
    : M pyval :=
  let zone := arg_or VNone zone in
  try_except (call "get_detailed_job_info" [build_list; prow_ci_name] [("zone", zone)])
    [(EProwTimeoutError, fun _ => ret (VInt 1));
     (EProwFetchError, fun _ => ret (VInt 1));
     (EProwParseError, fun _ => ret (VInt 1));
     (EException, fun _ => ret (VInt 1))].

(** The module-level [__getattr__] (line 331). *)
Definition __getattr__ (name : string) : M pyval :=
  getattr_monitor name.

(** ** Calls of the adapter as data *)

(** One constructor per function of the module, with the arguments of its
    signature. *)
Inductive invocation : Type :=
| Fetch_release_date (release : string)
| Fetch_build_time (url : string)
| Set_prow_url (ci_job_type : string)
| Load_config (config_file : string)
| Get_current_date
| Parse_job_date (date : string)
| Get_jobs (prow_link : string)
| Get_n_recent_jobs (prow_link : string) (n : Z)
| Check_job_status (spy_link : string)
| Cluster_deploy_status (spy_link : string)
| Cluster_creation_error_analysis (spylink : string)
| Check_if_gather_libvirt_dir_exists (spy_link job_type : string)
| Check_hypervisor_error (spy_link : string)
| Check_if_sensitive_info_exposed (spy_link : string)
| Get_node_status (spy_link : string)
| Check_node_crash (spy_link : string)
| Get_lease (build_log_response : pyval) (job_platform : string)
| Get_nightly (build_log_url : string) (build_log_response : pyval) (job_platform : string)
| Get_quota_and_nightly (spy_link : string)
| Job_classifier (spy_link : string)
| Get_failed_monitor_testcases (spy_link job_type : string)
| Get_failed_monitor_testcases_from_xml (spy_link job_type : string)
| Get_testcase_frequency (spylinks : pyval) (zone tc_name : option pyval)
| Get_failed_e2e_testcases (spy_link job_type : string)
| Get_junit_symptom_detection_testcase_failures (spy_link job_type : string)
| Get_all_failed_tc (spylink jobtype : string)
| Check_ts_exe_status (spylink jobtype : string)
| Print_all_failed_tc (spylink jobtype : string)
| Check_testcase_failure (spylink job_type testcase_name : string)
| Get_jobs_with_date (prowci_url : string) (start_date end_date : pyval)
| Get_next_page_first_build_date (ci_next_page_spylink : string) (end_date : pyval)
| Get_brief_job_info (build_list prow_ci_name : pyval) (zone : option pyval)
| Get_detailed_job_info (build_list prow_ci_name : pyval) (zone : option pyval).

Definition run (i : invocation) : M pyval :=
  match i with
  | Fetch_release_date r => fetch_release_date r
  | Fetch_build_time u => fetch_build_time u
  | Set_prow_url t => set_prow_url t
  | Load_config f => load_config f
  | Get_current_date => get_current_date
  | Parse_job_date d => parse_job_date d
  | Get_jobs l => get_jobs l
  | Get_n_recent_jobs l n => get_n_recent_jobs l n
  | Check_job_status l => check_job_status l
  | Cluster_deploy_status l => cluster_deploy_status l
  | Cluster_creation_error_analysis l => cluster_creation_error_analysis l
  | Check_if_gather_libvirt_dir_exists l t => check_if_gather_libvirt_dir_exists l t
  | Check_hypervisor_error l => check_hypervisor_error l
  | Check_if_sensitive_info_exposed l => check_if_sensitive_info_exposed l
  | Get_node_status l => get_node_status l
  | Check_node_crash l => check_node_crash l
  | Get_lease r p => get_lease r p
  | Get_nightly u r p => get_nightly u r p
  | Get_quota_and_nightly l => get_quota_and_nightly l
  | Job_classifier l => job_classifier l
  | Get_failed_monitor_testcases l t => get_failed_monitor_testcases l t
  | Get_failed_monitor_testcases_from_xml l t => get_failed_monitor_testcases_from_xml l t
  | Get_testcase_frequency ls z n => get_testcase_frequency ls z n
  | Get_failed_e2e_testcases l t => get_failed_e2e_testcases l t
  | Get_junit_symptom_detection_testcase_failures l t =>
      get_junit_symptom_detection_testcase_failures l t
  | Get_all_failed_tc l t => get_all_failed_tc l t
  | Check_ts_exe_status l t => check_ts_exe_status l t
  | Print_all_failed_tc l t => print_all_failed_tc l t
  | Check_testcase_failure l t n => check_testcase_failure l t n
  | Get_jobs_with_date u s e => get_jobs_with_date u s e
  | Get_next_page_first_build_date l e => get_next_page_first_build_date l e
  | Get_brief_job_info b c z => get_brief_job_info b c z
  | Get_detailed_job_info b c z => get_detailed_job_info b c z
  end.

(** A session: the calls a legacy caller makes one after the other,
    whatever each of them returns or raises. *)
Fixpoint run_all (calls : list invocation) (w : world MS) : world MS :=
  match calls with
  | [] => w
  | i :: rest => run_all rest (snd (run i w))
  end.

(** ** Attribute access on the adapter module *)

(** The names bound in the module's namespace once it is loaded: the
    import system's, the imports, the two globals and every [def]. *)
Definition function_names : list string :=
  ["_sync_module_attrs"; "_err_str_from_exc"; "fetch_release_date";
   "fetch_build_time"; "set_prow_url"; "load_config"; "get_current_date";
   "parse_job_date"; "get_jobs"; "get_n_recent_jobs"; "check_job_status";
   "cluster_deploy_status"; "cluster_creation_error_analysis";
   "check_if_gather_libvirt_dir_exists"; "check_hypervisor_error";
   "check_if_sensitive_info_exposed"; "get_node_status"; "check_node_crash";
   "get_lease"; "get_nightly"; "get_quota_and_nightly"; "job_classifier";
   "get_failed_monitor_testcases"; "get_failed_monitor_testcases_from_xml";
   "get_testcase_frequency"; "get_failed_e2e_testcases";
   "get_junit_symptom_detection_testcase_failures"; "get_all_failed_tc";
   "check_ts_exe_status"; "print_all_failed_tc"; "check_testcase_failure";
   "get_jobs_with_date"; "get_next_page_first_build_date";
   "get_brief_job_info"; "get_detailed_job_info"; "__getattr__"].

Definition import_system_names : list string :=
  ["__name__"; "__doc__"; "__package__"; "__loader__"; "__spec__";
   "__file__"; "__cached__"; "__builtins__"].

Definition imported_names : list string :=
  ["Tuple"; "List"; "Dict"; "Any"; "monitor"].

Definition other_names : list string :=
  (import_system_names ++ imported_names)%list.

(** The names the source itself binds: imports, globals, functions. *)
Definition source_names : list string :=
  (imported_names ++ ["PROW_URL"; "final_job_list"] ++ function_names)%list.

(** The names every module object resolves through its type, [object] and
    [types.ModuleType], before the module-level [__getattr__] is tried
    (the attributes of any CPython 3 release). *)
Definition module_type_names : list string :=
  ["__class__"; "__dict__"; "__dir__"; "__repr__"; "__str__"; "__init__";
   "__new__"; "__getattribute__"; "__setattr__"; "__delattr__"; "__hash__";
   "__eq__"; "__ne__"; "__lt__"; "__le__"; "__gt__"; "__ge__"; "__format__";
   "__reduce__"; "__reduce_ex__"; "__getstate__"; "__sizeof__";
   "__subclasshook__"; "__init_subclass__"; "__annotations__"; "__annotate__";
   "__doc__"].

Definition namespace (g : globals) : list (string * pyval) :=
  (map (fun n => (n, VObj n)) other_names
   ++ [("PROW_URL", PROW_URL g); ("final_job_list", final_job_list g)]
   ++ map (fun n => (n, VObj n)) function_names)%list.

(** [monitor_compat.name]: the module's namespace and the attributes of
    the module type first (none of the type's data descriptors is a name
    of the namespace, so the order of the two does not show); the
    module-level [__getattr__] only for a name that neither resolves. *)
Definition module_getattr (name : string) : M pyval :=
  fun w =>
    match assoc_get name (namespace (adapter w)) with
    | Some v => (Returned v, w)
    | None =>
        if existsb (String.eqb name) module_type_names
        then (Returned (VObj name), w)
        else __getattr__ name w
    end.

End Adapter.

Arguments M MS A : clear implicits.

(** ** What the adapter asks of the collaborator *)

(** The function of [monitor] an adapter call forwards to: the one of the
    same name. *)
Definition name_of (i : invocation) : string :=
  match i with
  | Fetch_release_date _ => "fetch_release_date"
  | Fetch_build_time _ => "fetch_build_time"
  | Set_prow_url _ => "set_prow_url"
  | Load_config _ => "load_config"
  | Get_current_date => "get_current_date"
  | Parse_job_date _ => "parse_job_date"
  | Get_jobs _ => "get_jobs"
  | Get_n_recent_jobs _ _ => "get_n_recent_jobs"
  | Check_job_status _ => "check_job_status"
  | Cluster_deploy_status _ => "cluster_deploy_status"
  | Cluster_creation_error_analysis _ => "cluster_creation_error_analysis"
  | Check_if_gather_libvirt_dir_exists _ _ => "check_if_gather_libvirt_dir_exists"
  | Check_hypervisor_error _ => "check_hypervisor_error"
  | Check_if_sensitive_info_exposed _ => "check_if_sensitive_info_exposed"
  | Get_node_status _ => "get_node_status"
  | Check_node_crash _ => "check_node_crash"
  | Get_lease _ _ => "get_lease"
  | Get_nightly _ _ _ => "get_nightly"
  | Get_quota_and_nightly _ => "get_quota_and_nightly"
  | Job_classifier _ => "job_classifier"
  | Get_failed_monitor_testcases _ _ => "get_failed_monitor_testcases"
  | Get_failed_monitor_testcases_from_xml _ _ => "get_failed_monitor_testcases_from_xml"
  | Get_testcase_frequency _ _ _ => "get_testcase_frequency"
  | Get_failed_e2e_testcases _ _ => "get_failed_e2e_testcases"
  | Get_junit_symptom_detection_testcase_failures _ _ =>
      "get_junit_symptom_detection_testcase_failures"
  | Get_all_failed_tc _ _ => "get_all_failed_tc"
  | Check_ts_exe_status _ _ => "check_ts_exe_status"
  | Print_all_failed_tc _ _ => "print_all_failed_tc"
  | Check_testcase_failure _ _ _ => "check_testcase_failure"
  | Get_jobs_with_date _ _ _ => "get_jobs_with_date"
  | Get_next_page_first_build_date _ _ => "get_next_page_first_build_date"
  | Get_brief_job_info _ _ _ => "get_brief_job_info"
  | Get_detailed_job_info _ _ _ => "get_detailed_job_info"
  end.

(** The arguments it forwards: those it was given, positionally, with
    [zone] by keyword in the two job-info listings. *)
Definition args_of (i : invocation) : list pyval :=
  match i with
  | Fetch_release_date s | Fetch_build_time s | Set_prow_url s | Load_config s
  | Parse_job_date s | Get_jobs s | Check_job_status s | Cluster_deploy_status s
  | Cluster_creation_error_analysis s | Check_hypervisor_error s
  | Check_if_sensitive_info_exposed s | Get_node_status s | Check_node_crash s
  | Get_quota_and_nightly s | Job_classifier s => [VStr s]
  | Get_current_date => []
  | Get_n_recent_jobs l n => [VStr l; VInt n]
  | Check_if_gather_libvirt_dir_exists a b | Get_failed_monitor_testcases a b
  | Get_failed_monitor_testcases_from_xml a b | Get_failed_e2e_testcases a b
  | Get_junit_symptom_detection_testcase_failures a b | Get_all_failed_tc a b
  | Check_ts_exe_status a b | Print_all_failed_tc a b => [VStr a; VStr b]
  | Get_lease r p => [r; VStr p]
  | Get_nightly u r p => [VStr u; r; VStr p]
  | Get_testcase_frequency ls z n => [ls; arg_or VNone z; arg_or VNone n]
  | Check_testcase_failure a b c => [VStr a; VStr b; VStr c]
  | Get_jobs_with_date u s e => [VStr u; s; e]
  | Get_next_page_first_build_date l e => [VStr l; e]
  | Get_brief_job_info b c _ | Get_detailed_job_info b c _ => [b; c]
  end.

Definition kwargs_of (i : invocation) : kwargs :=
  match i with
  | Get_brief_job_info _ _ z | Get_detailed_job_info _ _ z => [("zone", arg_or VNone z)]
  | _ => []
  end.

(** The collaborator's answer to the call behind [i], in the state [ms]. *)
Definition forwarded {MS} (monitor : Monitor MS) (i : invocation) (ms : MS)
    : outcome pyval * MS :=
  mon_call monitor (name_of i) (args_of i) (kwargs_of i) ms.

(** ** The documented legacy values *)

(** The five functions the source leaves without a [try]: they forward and
    nothing else. *)
Definition forwards_only (i : invocation) : bool :=
  match i with
  | Set_prow_url _ | Load_config _ | Get_current_date | Parse_job_date _
  | Job_classifier _ => true
  | _ => false
  end.

Definition is_sensitive_check (i : invocation) : bool :=
  match i with Check_if_sensitive_info_exposed _ => true | _ => false end.

(** The spec's error-to-value table (section 4.1). *)
Definition generic_legacy_string (k : failure_kind) : string :=
  match k with
  | TimeoutFailure => "Request timed out"
  | FetchFailure => "Error while sending request to url"
  | ParseFailure => "ERROR"
  | UnclassifiedFailure => "ERROR"
  end.

(** The message of a testcase-extraction function for a failure kind. *)
Definition extraction_message (i : invocation) (k : failure_kind) : string :=
  match i, k with
  | Get_junit_symptom_detection_testcase_failures _ _, FetchFailure =>
      "Error while sending request to url"
  | _, TimeoutFailure => "Request timed out"
  | _, FetchFailure => "Failed to get response from e2e-test directory url"
  | Get_failed_monitor_testcases_from_xml _ _, ParseFailure =>
      "Failed to parse junit e2e log file!"
  | Get_junit_symptom_detection_testcase_failures _ _, ParseFailure =>
      "Failed to parse symptom detection e2e log file!"
  | _, ParseFailure => "Failed to parse the data from e2e-test log file!"
  | Get_failed_monitor_testcases _ _, UnclassifiedFailure =>
      "Failed to parse the data from e2e-test log file!"
  | Get_failed_monitor_testcases_from_xml _ _, UnclassifiedFailure =>
      "Monitor test file not found"
  | Get_junit_symptom_detection_testcase_failures _ _, UnclassifiedFailure =>
      "Junit test summary file not found"
  | _, UnclassifiedFailure => "Test summary file not found"
  end.

(** The operations that override the generic table, with their value. *)
Definition override (i : invocation) (k : failure_kind) : option pyval :=
  match i with
  | Get_lease _ _ => Some (VStr "Failed to fetch lease information")
  | Get_nightly _ _ platform =>
      Some (VStr ("Unable to fetch nightly " ++ platform
                  ++ " information - No match found"))
  | Get_quota_and_nightly _ =>
      Some (VTuple [VStr (match k with
                          | TimeoutFailure | FetchFailure => generic_legacy_string k
                          | _ => "Failed to fetch lease information"
                          end); VNone])
  | Get_failed_monitor_testcases _ _ | Get_failed_monitor_testcases_from_xml _ _
  | Get_failed_e2e_testcases _ _ | Get_junit_symptom_detection_testcase_failures _ _ =>
      Some (VTuple [VList []; VStr (extraction_message i k)])
  | Get_all_failed_tc _ _ =>
      Some (VTuple [VDict []; VInt 0;
                    error_object_of
                      (VStr (match k with
                             | TimeoutFailure | FetchFailure => generic_legacy_string k
                             | _ => extraction_message i k
                             end))])
  | Get_testcase_frequency _ _ _ => Some (VDict [])
  | Check_testcase_failure _ _ _ => Some (VBool false)
  | Get_brief_job_info _ _ _ => Some (VList [])
  | Get_detailed_job_info _ _ _ => Some (VInt 1)
  | _ => None
  end.

Definition legacy_value (i : invocation) (k : failure_kind) : pyval :=
  match override i k with
  | Some v => v
  | None => VStr (generic_legacy_string k)
  end.

(** The kinds of legacy value the spec enumerates (section 4.1, item 3);
    the re-raised runtime error, the sixth, is an outcome and not a value. *)
Inductive legacy_kind : Type :=
| SentinelString | EmptyList | EmptyMapping | FixedInteger | FilledTuple.

(** The kind of a value, by its own type: a boolean is not counted as an
    integer code. *)
Definition legacy_kind_of (v : pyval) : option legacy_kind :=
  match v with
  | VStr _ => Some SentinelString
  | VList [] => Some EmptyList
  | VDict [] => Some EmptyMapping
  | VInt _ => Some FixedInteger
  | VTuple _ => Some FilledTuple
  | _ => None
  end.

(** [sub in s] on strings. *)
Definition contains (s sub : string) : Prop :=
  exists pre post, s = pre ++ sub ++ post.

Definition is_raised {A} (o : outcome A) : bool :=
  match o with Raised _ => true | Returned _ => false end.

(** Whether a name resolves on the adapter module itself, through its
    namespace or through the module type; the names do not depend on what
    the two globals hold. *)
Definition is_defined (name : string) : bool :=
  existsb (String.eqb name) (map fst (namespace (mkGlobals VNone VNone)))
  || existsb (String.eqb name) module_type_names.

(** A computation that leaves the adapter's globals as it found them, and
    a list of [except] clauses that all do. *)
Definition preserves_globals {MS A} (m : M MS A) : Prop :=
  forall w, adapter (snd (m w)) = adapter w.

Definition handlers_preserve {MS A} (hs : list (@handler MS A)) : Prop :=
  Forall (fun ch => forall e, preserves_globals (snd ch e)) hs.

(** ** What the adapter makes of a successful answer *)

(** The functions that reshape what the collaborator returned, and among
    them the three that pair it with [None] without looking at it. *)
Definition reshapes (i : invocation) : bool :=
  match i with
  | Get_failed_monitor_testcases _ _ | Get_failed_monitor_testcases_from_xml _ _
  | Get_failed_e2e_testcases _ _ | Get_junit_symptom_detection_testcase_failures _ _
  | Get_all_failed_tc _ _ => true
  | _ => false
  end.

Definition pairs_result (i : invocation) : bool :=
  match i with
  | Get_failed_monitor_testcases_from_xml _ _ | Get_failed_e2e_testcases _ _
  | Get_junit_symptom_detection_testcase_failures _ _ => true
  | _ => false
  end.

(** [d.get(k, [])] *)
Definition get_or_empty (k : string) (d : list (string * pyval)) : pyval :=
  match assoc_get k d with Some x => x | None => VList [] end.

(** The triple of the catch-all clause of [get_all_failed_tc]. *)
Definition catch_all_triple : pyval :=
  VTuple [VDict []; VInt 0; error_object_of (VStr "Test summary file not found")].

(** The value [get_all_failed_tc] returns when the collaborator returned
    [v]: the path through the [try] body, with the catch-all clause taking
    over where [.get] or [len] fails. *)
Definition all_failed_tc_value (v : pyval) : pyval :=
  if is_tuple_of_len v 3 then v
  else match v with
       | VDict d =>
           match seq_length (get_or_empty "conformance" d),
                 seq_length (get_or_empty "monitor" d),
                 seq_length (get_or_empty "symptom_detection" d) with
           | Some n1, Some n2, Some n3 =>
               VTuple [v; VInt (n1 + n2 + n3); error_object_of VNone]
           | _, _, _ => catch_all_triple
           end
       | _ => catch_all_triple
       end.

(** The value each function returns when the collaborator returned [v]. *)
Definition on_success (i : invocation) (v : pyval) : pyval :=
  match i with
  | Get_failed_monitor_testcases _ _ => if is_tuple v then v else VTuple [v; VNone]
  | Get_failed_monitor_testcases_from_xml _ _ | Get_failed_e2e_testcases _ _
  | Get_junit_symptom_detection_testcase_failures _ _ => VTuple [v; VNone]
  | Get_all_failed_tc _ _ => all_failed_tc_value v
  | _ => v
  end.

(** ** Collaborator stubs *)

Module Stub.

(** Every call raises [e]; the module has no attribute at all. *)
Definition raising (e : exc) : Monitor unit :=
  mkMonitor (fun _ _ _ ms => (Raised e, ms))
            (fun name _ => Raised (AttributeError name))
            (fun _ _ => None).

(** Every call returns [v]; the module has no attribute at all. *)
Definition returning (v : pyval) : Monitor unit :=
  mkMonitor (fun _ _ _ ms => (Returned v, ms))
            (fun name _ => Raised (AttributeError name))
            (fun _ _ => None).

(** A collaborator with state: the jobs seen so far.  [get_jobs] rebinds
    the module's job list to a longer one, the attribute [final_job_list]
    reads it, and [PROW_URL] and [ZONES] are constants of the module. *)
Definition recording : Monitor (list pyval) :=
  mkMonitor
    (fun f args _ jobs =>
       if String.eqb f "get_jobs" then (Returned (VList (jobs ++ args)%list), (jobs ++ args)%list)
       else (Raised (mkExc ProwFetchError f), jobs))
    (fun name jobs =>
       if String.eqb name "final_job_list" then Returned (VList jobs)
       else if String.eqb name "PROW_URL" then Returned (VStr "https://prow.example/")
       else if String.eqb name "ZONES" then Returned (VList [VStr "syd04"])
       else Raised (AttributeError name))
    (fun _ _ => None).

(** A collaborator that keeps its jobs in one list object and appends to
    it in place: [final_job_list] is that object, and so is what
    [get_jobs] returns; the state is the object's content.  As a module it
    has a [__name__] and a [__dict__] of its own. *)
Definition sharing : Monitor (list pyval) :=
  mkMonitor
    (fun f args _ jobs =>
       if String.eqb f "get_jobs" then (Returned (VObj "final_job_list"), (jobs ++ args)%list)
       else (Raised (mkExc ProwFetchError f), jobs))
    (fun name jobs =>
       if String.eqb name "final_job_list" then Returned (VObj "final_job_list")
       else if String.eqb name "PROW_URL" then Returned (VStr "https://prow.example/")
       else if String.eqb name "__name__" then Returned (VStr "monitor")
       else if String.eqb name "__dict__" then Returned (VObj "monitor.__dict__")
       else Raised (AttributeError name))
    (fun id jobs =>
       if String.eqb id "final_job_list" then Some (VList jobs) else None).

Definition timeout : exc := mkExc ProwTimeoutError "read timed out".

Definition start : world unit := mkWorld (mkGlobals VNone (VList [])) tt.

End Stub.

(** ** Properties *)

Create HintDb adapter.
#[export] Hint Unfold
  fetch_release_date fetch_build_time set_prow_url load_config get_current_date
  parse_job_date get_jobs get_n_recent_jobs check_job_status cluster_deploy_status
  cluster_creation_error_analysis check_if_gather_libvirt_dir_exists
  check_hypervisor_error check_if_sensitive_info_exposed get_node_status
  check_node_crash get_lease get_nightly get_quota_and_nightly job_classifier
  get_failed_monitor_testcases get_failed_monitor_testcases_from_xml
  get_testcase_frequency get_failed_e2e_testcases
  get_junit_symptom_detection_testcase_failures get_all_failed_tc
  check_ts_exe_status print_all_failed_tc check_testcase_failure
  get_jobs_with_date get_next_page_first_build_date get_brief_job_info
  get_detailed_job_info return_err_str return_generic_strings : adapter.

(** *** The functions on concrete collaborators *)

Example err_str_table :
  map (fun c => _err_str_from_exc (mkExc c "boom"))
      [ProwTimeoutError; ProwFetchError; ProwParseError; BuiltinError "KeyError"]
  = ["Request timed out"; "Error while sending request to url"; "ERROR"; "ERROR"].
Proof. reflexivity. Qed.

(** [len] of a string counts code points: e with an acute accent is two
    bytes and one character. *)
Example len_counts_code_points :
  seq_length (VStr (String (Ascii.ascii_of_nat 195)
                      (String (Ascii.ascii_of_nat 169) "t"))) = Some 2
  /\ seq_length (VStr "ete") = Some 3.
Proof. split; reflexivity. Qed.

Example fetch_build_time_passes_result :
  fetch_build_time (Stub.returning (VStr "2024-05-01 10:00")) "build-log.txt" Stub.start
  = (Returned (VStr "2024-05-01 10:00"), Stub.start).
Proof. reflexivity. Qed.

Example quota_and_nightly_on_parse_error :
  get_quota_and_nightly (Stub.raising (mkExc ProwParseError "no lease")) "link" Stub.start
  = (Returned (VTuple [VStr "Failed to fetch lease information"; VNone]), Stub.start).
Proof. reflexivity. Qed.

(** A result of [get_all_failed_tc] that is neither a triple nor a dict:
    [.get] fails inside the [try] and the catch-all clause answers. *)
Example all_failed_tc_of_list :
  get_all_failed_tc (Stub.returning (VList [VStr "a"])) "link" "e2e" Stub.start
  = (Returned (VTuple [VDict []; VInt 0;
                       error_object_of (VStr "Test summary file not found")]),
     Stub.start).
Proof. reflexivity. Qed.

Example all_failed_tc_of_triple :
  let triple := VTuple [VDict []; VInt 0; error_object_of VNone] in
  get_all_failed_tc (Stub.returning triple) "link" "e2e" Stub.start
  = (Returned triple, Stub.start).
Proof. reflexivity. Qed.

Example recording_collaborator_session :
  run Stub.recording (Get_jobs "job-1") (mkWorld (mkGlobals VNone VNone) [VStr "job-0"])
  = (Returned (VList [VStr "job-0"; VStr "job-1"]),
     mkWorld (mkGlobals VNone VNone) [VStr "job-0"; VStr "job-1"]).
Proof. reflexivity. Qed.

Section Laws.

Context {MS : Type}.
Variable monitor : Monitor MS.

Lemma call_forwarded (f : string) (args : list pyval) (kw : kwargs) (w : world MS) :
  call monitor f args kw w =
  (fst (mon_call monitor f args kw (collaborator w)),
   mkWorld (adapter w) (snd (mon_call monitor f args kw (collaborator w)))).
Proof.
  unfold call. destruct (mon_call monitor f args kw (collaborator w)); reflexivity.
Qed.

Lemma call_raised (f : string) (args : list pyval) (kw : kwargs) (w : world MS)
    (e : exc) (ms' : MS) :
  mon_call monitor f args kw (collaborator w) = (Raised e, ms') ->
  call monitor f args kw w = (Raised e, mkWorld (adapter w) ms').
Proof. intros H. rewrite call_forwarded, H. reflexivity. Qed.

Lemma call_returned (f : string) (args : list pyval) (kw : kwargs) (w : world MS)
    (v : pyval) (ms' : MS) :
  mon_call monitor f args kw (collaborator w) = (Returned v, ms') ->
  call monitor f args kw w = (Returned v, mkWorld (adapter w) ms').
Proof. intros H. rewrite call_forwarded, H. reflexivity. Qed.

Lemma try_except_raised {A} (body : M MS A) (hs : list (handler A)) (w w' : world MS)
    (e : exc) :
  body w = (Raised e, w') ->
  try_except body hs w =
  match find_handler e hs with Some h => h e w' | None => (Raised e, w') end.
Proof. intros H. unfold try_except. rewrite H. reflexivity. Qed.

Lemma try_except_returned {A} (body : M MS A) (hs : list (handler A)) (w w' : world MS)
    (a : A) :
  body w = (Returned a, w') -> try_except body hs w = (Returned a, w').
Proof. intros H. unfold try_except. rewrite H. reflexivity. Qed.

Lemma bind_raised {A B} (m : M MS A) (k : A -> M MS B) (w w' : world MS) (e : exc) :
  m w = (Raised e, w') -> bind m k w = (Raised e, w').
Proof. intros H. unfold bind. rewrite H. reflexivity. Qed.

Lemma bind_returned {A B} (m : M MS A) (k : A -> M MS B) (w w' : world MS) (a : A) :
  m w = (Returned a, w') -> bind m k w = k a w'.
Proof. intros H. unfold bind. rewrite H. reflexivity. Qed.

(** [_err_str_from_exc] is the generic table of the spec. *)
Lemma err_str_generic (e : exc) :
  _err_str_from_exc e = generic_legacy_string (kind_of e).
Proof. destruct e as [[] msg]; reflexivity. Qed.

(** An [except Exception] clause in first position takes everything. *)
Lemma find_handler_Exception {A} (e : exc) (h : exc -> M MS A) (hs : list (handler A)) :
  find_handler e ((EException, h) :: hs) = Some h.
Proof. destruct e as [[] msg]; reflexivity. Qed.

(** The collaborator's call raised: what each catching function returns,
    and what each forwarding function lets through. *)
Lemma run_when_raised (i : invocation) (w : world MS) (e : exc) (ms' : MS) :
  forwarded monitor i (collaborator w) = (Raised e, ms') ->
  run monitor i w =
  (if forwards_only i then Raised e
   else if is_sensitive_check i
        then Raised (RuntimeError ("Error in check_if_sensitive_info_exposed: "
                                   ++ generic_legacy_string (kind_of e)))
        else Returned (legacy_value i (kind_of e)),
   mkWorld (adapter w) ms').
Proof.
  unfold forwarded. intros H.
  destruct i; cbn [name_of args_of kwargs_of] in H;
    apply call_raised in H; cbn [run forwards_only is_sensitive_check];
    try exact H; autounfold with adapter;
    (erewrite try_except_raised by (first [exact H | apply bind_raised; exact H]));
    destruct e as [[] msg]; reflexivity.
Qed.

(** The collaborator's call returned: the functions that hand the result
    on as it is. *)
Lemma try_call_returned (f : string) (args : list pyval) (kw : kwargs)
    (hs : list (handler pyval)) (w : world MS) (v : pyval) (ms' : MS) :
  mon_call monitor f args kw (collaborator w) = (Returned v, ms') ->
  try_except (call monitor f args kw) hs w = (Returned v, mkWorld (adapter w) ms').
Proof. intros H. apply try_except_returned, call_returned, H. Qed.

(** *** Frame: what a computation leaves of the adapter's globals *)

Lemma preserves_ret {A} (a : A) : preserves_globals (ret (MS:=MS) a).
Proof. intros w. reflexivity. Qed.

Lemma preserves_raise {A} (e : exc) : preserves_globals (raise (MS:=MS) (A:=A) e).
Proof. intros w. reflexivity. Qed.

Lemma preserves_call (f : string) (args : list pyval) (kw : kwargs) :
  preserves_globals (call monitor f args kw).
Proof. intros w. rewrite call_forwarded. reflexivity. Qed.

Lemma preserves_getattr_monitor (name : string) :
  preserves_globals (getattr_monitor monitor name).
Proof. intros w. reflexivity. Qed.

Lemma preserves_bind {A B} (m : M MS A) (k : A -> M MS B) :
  preserves_globals m -> (forall a, preserves_globals (k a)) ->
  preserves_globals (bind m k).
Proof.
  intros Hm Hk w. unfold bind. specialize (Hm w).
  destruct (m w) as [[a | e] w']; simpl in *.
  - rewrite Hk. exact Hm.
  - exact Hm.
Qed.

Lemma find_handler_preserves {A} (e : exc) (hs : list (handler A)) (h : exc -> M MS A) :
  handlers_preserve hs -> find_handler e hs = Some h -> preserves_globals (h e).
Proof.
  induction 1 as [| [c h0] hs Hh _ IH]; simpl; intros Hf.
  - discriminate.
  - destruct (isinstance_exc e c).
    + inversion Hf; subst. apply Hh.
    + apply IH, Hf.
Qed.

Lemma preserves_try_except {A} (body : M MS A) (hs : list (handler A)) :
  preserves_globals body -> handlers_preserve hs ->
  preserves_globals (try_except body hs).
Proof.
  intros Hb Hh w. unfold try_except. specialize (Hb w).
  destruct (body w) as [[a | e] w']; simpl in *.
  - exact Hb.
  - destruct (find_handler e hs) as [h |] eqn:Hf; simpl.
    + transitivity (adapter w'); [| exact Hb].
      eapply find_handler_preserves; eassumption.
    + exact Hb.
Qed.

Lemma preserves_py_len (v : pyval) : preserves_globals (py_len (MS:=MS) v).
Proof. intros w. unfold py_len. destruct (seq_length v); reflexivity. Qed.

Lemma preserves_py_get (v : pyval) (k : string) (d : pyval) :
  preserves_globals (py_get (MS:=MS) v k d).
Proof. intros w. destruct v; reflexivity. Qed.

Lemma preserves_if {A} (b : bool) (m1 m2 : M MS A) :
  preserves_globals m1 -> preserves_globals m2 ->
  preserves_globals (if b then m1 else m2).
Proof. destruct b; auto. Qed.

Ltac frame :=
  repeat first
    [ apply preserves_ret | apply preserves_raise | apply preserves_call
    | apply preserves_getattr_monitor | apply preserves_py_len
    | apply preserves_py_get | apply preserves_if
    | apply preserves_try_except | apply preserves_bind
    | apply Forall_cons | apply Forall_nil
    | intro ].

(** No function of the adapter assigns to its globals. *)
Lemma run_preserves (i : invocation) : preserves_globals (run monitor i).
Proof. destruct i; cbn [run]; autounfold with adapter; frame. Qed.

Lemma module_getattr_preserves (name : string) :
  preserves_globals (module_getattr monitor name).
Proof.
  intros w. unfold module_getattr.
  destruct (assoc_get name (namespace (adapter w))); [reflexivity |].
  destruct (existsb (String.eqb name) module_type_names); reflexivity.
Qed.

Lemma run_all_preserves (calls : list invocation) (w : world MS) :
  adapter (run_all monitor calls w) = adapter w.
Proof.
  revert w. induction calls as [| i rest IH]; intros w; simpl.
  - reflexivity.
  - rewrite IH. apply run_preserves.
Qed.

End Laws.

Unset Implicit Arguments.

(** ** Error handling *)

(** C1, as the spec words it, at [set_prow_url]: the collaborator raises a
    timeout and the adapter, which has no [try] there, raises it too. *)
Lemma set_prow_url_lets_timeout_escape :
  is_sensitive_check (Set_prow_url "periodic") = false /\
  kind_of Stub.timeout = TimeoutFailure /\
  forwarded (Stub.raising Stub.timeout) (Set_prow_url "periodic") tt
    = (Raised Stub.timeout, tt) /\
  set_prow_url (Stub.raising Stub.timeout) "periodic" Stub.start
    = (Raised Stub.timeout, Stub.start) /\
  is_raised (fst (run (Stub.raising Stub.timeout) (Set_prow_url "periodic") Stub.start))
    = true.
Proof. repeat split. Qed.

(** C1 (amended): when the collaborator's call raises, every function of
    the adapter that has a [try], the sensitive-info check apart, returns
    the legacy value of that function and failure kind, and leaves the
    collaborator in the state the failed call left; the five functions
    without a [try] ([set_prow_url], [load_config], [get_current_date],
    [parse_job_date], [job_classifier]) raise the collaborator's exception
    unchanged.  Where no override applies the legacy value is the string
    of the generic table. *)
Theorem failure_becomes_legacy_value
    (MS : Type) (monitor : Monitor MS) (i : invocation) (w : world MS)
    (e : exc) (ms' : MS) :
  forwarded monitor i (collaborator w) = (Raised e, ms') ->
  is_sensitive_check i = false ->
  (forwards_only i = false ->
   run monitor i w = (Returned (legacy_value i (kind_of e)), mkWorld (adapter w) ms')
   /\ (override i (kind_of e) = None ->
       legacy_value i (kind_of e) = VStr (_err_str_from_exc e)))
  /\ (forwards_only i = true ->
      run monitor i w = (Raised e, mkWorld (adapter w) ms')).
Proof.
  intros H Hs. rewrite (run_when_raised monitor i w H), Hs.
  split; intros Hf; rewrite Hf.
  - split; [reflexivity |].
    intros Ho. unfold legacy_value. rewrite Ho, err_str_generic. reflexivity.
  - reflexivity.
Qed.

Lemma failure_becomes_legacy_value_witness :
  run (Stub.raising Stub.timeout) (Get_jobs "https://prow.example/job") Stub.start
    = (Returned (VStr "Request timed out"), Stub.start)
  /\ run (Stub.raising Stub.timeout) (Load_config "config.ini") Stub.start
    = (Raised Stub.timeout, Stub.start).
Proof.
  split.
  - apply (failure_becomes_legacy_value unit (Stub.raising Stub.timeout)
             (Get_jobs "https://prow.example/job") Stub.start Stub.timeout tt);
      reflexivity.
  - apply (failure_becomes_legacy_value unit (Stub.raising Stub.timeout)
             (Load_config "config.ini") Stub.start Stub.timeout tt);
      reflexivity.
Defined.

(** C4: whatever the collaborator raises, [check_if_sensitive_info_exposed]
    raises a [RuntimeError] whose message contains the string the generic
    mapping gives that exception; and among the functions that catch, it is
    the only one from which a failure comes out as an exception. *)
Theorem sensitive_check_reraises
    (MS : Type) (monitor : Monitor MS) (spy_link : string) (w : world MS)
    (e : exc) (ms' : MS) :
  mon_call monitor "check_if_sensitive_info_exposed" [VStr spy_link] [] (collaborator w)
    = (Raised e, ms') ->
  (exists msg,
      check_if_sensitive_info_exposed monitor spy_link w
        = (Raised (RuntimeError msg), mkWorld (adapter w) ms')
      /\ contains msg (_err_str_from_exc e)
      /\ contains msg (generic_legacy_string (kind_of e)))
  /\ (forall (i : invocation) (w1 : world MS) (e1 : exc) (ms1 : MS),
        forwards_only i = false ->
        forwarded monitor i (collaborator w1) = (Raised e1, ms1) ->
        (is_raised (fst (run monitor i w1)) = true <-> is_sensitive_check i = true)).
Proof.
  intros H. split.
  - exists ("Error in check_if_sensitive_info_exposed: "
            ++ generic_legacy_string (kind_of e)).
    split; [| split].
    + exact (run_when_raised monitor (Check_if_sensitive_info_exposed spy_link) w H).
    + rewrite err_str_generic.
      exists "Error in check_if_sensitive_info_exposed: ", "".
      destruct (kind_of e); reflexivity.
    + exists "Error in check_if_sensitive_info_exposed: ", "".
      destruct (kind_of e); reflexivity.
  - intros i w1 e1 ms1 Hf H1.
    rewrite (run_when_raised monitor i w1 H1), Hf.
    destruct (is_sensitive_check i); simpl; split; congruence.
Qed.

Lemma sensitive_check_reraises_witness :
  exists msg,
    check_if_sensitive_info_exposed (Stub.raising Stub.timeout) "https://prow.example/job"
      Stub.start = (Raised (RuntimeError msg), Stub.start)
    /\ contains msg "Request timed out".
Proof.
  destruct (sensitive_check_reraises unit (Stub.raising Stub.timeout)
              "https://prow.example/job" Stub.start Stub.timeout tt eq_refl)
    as [[msg [Hrun [Hc _]]] _].
  exists msg. split; [exact Hrun | exact Hc].
Defined.

(** C6: on every exception of the collaborator [get_lease] returns
    "Failed to fetch lease information" and [get_nightly] returns
    "Unable to fetch nightly {platform} information - No match found"
    with the job platform it was called with. *)
Theorem lease_and_nightly_overrides
    (MS : Type) (monitor : Monitor MS) (w : world MS) (e : exc) (ms' : MS)
    (build_log_url : string) (build_log_response : pyval) (job_platform : string) :
  (mon_call monitor "get_lease" [build_log_response; VStr job_platform] []
     (collaborator w) = (Raised e, ms') ->
   get_lease monitor build_log_response job_platform w
     = (Returned (VStr "Failed to fetch lease information"), mkWorld (adapter w) ms'))
  /\ (mon_call monitor "get_nightly"
        [VStr build_log_url; build_log_response; VStr job_platform] []
        (collaborator w) = (Raised e, ms') ->
      get_nightly monitor build_log_url build_log_response job_platform w
        = (Returned (VStr ("Unable to fetch nightly " ++ job_platform
                           ++ " information - No match found")),
           mkWorld (adapter w) ms')).
Proof.
  split; intros H.
  - exact (run_when_raised monitor (Get_lease build_log_response job_platform) w H).
  - exact (run_when_raised monitor
             (Get_nightly build_log_url build_log_response job_platform) w H).
Qed.

Lemma lease_and_nightly_overrides_witness :
  get_lease (Stub.raising Stub.timeout) (VObj "response") "libvirt" Stub.start
    = (Returned (VStr "Failed to fetch lease information"), Stub.start)
  /\ get_nightly (Stub.raising Stub.timeout) "https://prow.example/build-log.txt"
       (VObj "response") "powervs" Stub.start
    = (Returned (VStr "Unable to fetch nightly powervs information - No match found"),
       Stub.start).
Proof.
  split.
  - apply (proj1 (lease_and_nightly_overrides unit (Stub.raising Stub.timeout)
                    Stub.start Stub.timeout tt "" (VObj "response") "libvirt")).
    reflexivity.
  - apply (proj2 (lease_and_nightly_overrides unit (Stub.raising Stub.timeout)
                    Stub.start Stub.timeout tt "https://prow.example/build-log.txt"
                    (VObj "response") "powervs")).
    reflexivity.
Defined.

(** C7: on every exception of the collaborator [get_brief_job_info]
    returns the empty list and [get_detailed_job_info] returns the
    integer 1; neither value is a string. *)
Theorem job_info_failure_values
    (MS : Type) (monitor : Monitor MS) (w : world MS) (e : exc) (ms' : MS)
    (build_list prow_ci_name : pyval) (zone : option pyval) :
  (mon_call monitor "get_brief_job_info" [build_list; prow_ci_name]
     [("zone", arg_or VNone zone)] (collaborator w) = (Raised e, ms') ->
   get_brief_job_info monitor build_list prow_ci_name zone w
     = (Returned (VList []), mkWorld (adapter w) ms'))
  /\ (mon_call monitor "get_detailed_job_info" [build_list; prow_ci_name]
        [("zone", arg_or VNone zone)] (collaborator w) = (Raised e, ms') ->
      get_detailed_job_info monitor build_list prow_ci_name zone w
        = (Returned (VInt 1), mkWorld (adapter w) ms'))
  /\ legacy_kind_of (VList []) = Some EmptyList
  /\ legacy_kind_of (VInt 1) = Some FixedInteger.
Proof.
  split; [| split; [| split; reflexivity]]; intros H.
  - exact (run_when_raised monitor (Get_brief_job_info build_list prow_ci_name zone) w H).
  - exact (run_when_raised monitor
             (Get_detailed_job_info build_list prow_ci_name zone) w H).
Qed.

Lemma job_info_failure_values_witness :
  get_brief_job_info (Stub.raising Stub.timeout) (VList [VStr "1871"]) (VStr "periodic")
    None Stub.start = (Returned (VList []), Stub.start)
  /\ get_detailed_job_info (Stub.raising Stub.timeout) (VList [VStr "1871"])
       (VStr "periodic") (Some (VStr "syd04")) Stub.start
    = (Returned (VInt 1), Stub.start).
Proof.
  split.
  - apply (proj1 (job_info_failure_values unit (Stub.raising Stub.timeout) Stub.start
                    Stub.timeout tt (VList [VStr "1871"]) (VStr "periodic") None)).
    reflexivity.
  - apply (proj1 (proj2 (job_info_failure_values unit (Stub.raising Stub.timeout)
                           Stub.start Stub.timeout tt (VList [VStr "1871"])
                           (VStr "periodic") (Some (VStr "syd04"))))).
    reflexivity.
Defined.

(** C10: on every exception of the collaborator [check_testcase_failure]
    returns [False] and does not raise; a boolean is none of the kinds of
    legacy value the spec enumerates. *)
Theorem testcase_failure_check_returns_False
    (MS : Type) (monitor : Monitor MS) (w : world MS) (e : exc) (ms' : MS)
    (spylink job_type testcase_name : string) :
  mon_call monitor "check_testcase_failure"
    [VStr spylink; VStr job_type; VStr testcase_name] [] (collaborator w)
    = (Raised e, ms') ->
  check_testcase_failure monitor spylink job_type testcase_name w
    = (Returned (VBool false), mkWorld (adapter w) ms')
  /\ legacy_kind_of (VBool false) = None.
Proof.
  intros H. split; [| reflexivity].
  exact (run_when_raised monitor
           (Check_testcase_failure spylink job_type testcase_name) w H).
Qed.

Lemma testcase_failure_check_returns_False_witness :
  check_testcase_failure (Stub.raising (mkExc ProwParseError "bad junit")) "link" "e2e"
    "sig-storage" Stub.start = (Returned (VBool false), Stub.start).
Proof.
  apply (testcase_failure_check_returns_False unit
           (Stub.raising (mkExc ProwParseError "bad junit")) Stub.start
           (mkExc ProwParseError "bad junit") tt "link" "e2e" "sig-storage").
  reflexivity.
Defined.

(** ** Result shapes *)

(** What [get_failed_monitor_testcases] does with a successful result: a
    tuple goes through as it is, anything else is paired with [None]. *)
Lemma monitor_testcases_normalized
    (MS : Type) (monitor : Monitor MS) (w : world MS) (v : pyval) (ms' : MS)
    (spy_link job_type : string) :
  mon_call monitor "get_failed_monitor_testcases" [VStr spy_link; VStr job_type] []
    (collaborator w) = (Returned v, ms') ->
  get_failed_monitor_testcases monitor spy_link job_type w
    = (Returned (if is_tuple v then v else VTuple [v; VNone]), mkWorld (adapter w) ms').
Proof.
  intros H. unfold get_failed_monitor_testcases.
  apply try_except_returned.
  erewrite bind_returned by (apply call_returned; exact H).
  destruct (is_tuple v); reflexivity.
Qed.

(** What the three other extraction functions do with it: they pair it
    with [None] without looking at it. *)
Lemma other_testcases_paired
    (MS : Type) (monitor : Monitor MS) (w : world MS) (v : pyval) (ms' : MS)
    (spy_link job_type : string) :
  (mon_call monitor "get_failed_e2e_testcases" [VStr spy_link; VStr job_type] []
     (collaborator w) = (Returned v, ms') ->
   get_failed_e2e_testcases monitor spy_link job_type w
     = (Returned (VTuple [v; VNone]), mkWorld (adapter w) ms'))
  /\ (mon_call monitor "get_failed_monitor_testcases_from_xml"
        [VStr spy_link; VStr job_type] [] (collaborator w) = (Returned v, ms') ->
      get_failed_monitor_testcases_from_xml monitor spy_link job_type w
        = (Returned (VTuple [v; VNone]), mkWorld (adapter w) ms'))
  /\ (mon_call monitor "get_junit_symptom_detection_testcase_failures"
        [VStr spy_link; VStr job_type] [] (collaborator w) = (Returned v, ms') ->
      get_junit_symptom_detection_testcase_failures monitor spy_link job_type w
        = (Returned (VTuple [v; VNone]), mkWorld (adapter w) ms')).
Proof.
  repeat split; intros H; autounfold with adapter;
    apply try_except_returned;
    erewrite bind_returned by (apply call_returned; exact H); reflexivity.
Qed.

(** C2, as the spec words it, at a collaborator that answers with the
    legacy pair [(["tc1"], None)]: [get_failed_monitor_testcases] returns
    the pair as it is, and a bare list becomes [(list, None)] in both
    functions; but [get_failed_e2e_testcases] does not return the pair
    unchanged, it returns [((["tc1"], None), None)]. *)
Theorem e2e_testcases_wraps_legacy_pair :
  let tcs := VList [VStr "tc1"] in
  let legacy := VTuple [tcs; VNone] in
  get_failed_monitor_testcases (Stub.returning tcs) "link" "e2e" Stub.start
    = (Returned legacy, Stub.start)
  /\ get_failed_monitor_testcases (Stub.returning legacy) "link" "e2e" Stub.start
    = (Returned legacy, Stub.start)
  /\ get_failed_e2e_testcases (Stub.returning tcs) "link" "e2e" Stub.start
    = (Returned legacy, Stub.start)
  /\ get_failed_e2e_testcases (Stub.returning legacy) "link" "e2e" Stub.start
    = (Returned (VTuple [legacy; VNone]), Stub.start)
  /\ VTuple [legacy; VNone] <> legacy.
Proof. repeat split. discriminate. Qed.

(** C2 (amended): of the four testcase-extraction functions only
    [get_failed_monitor_testcases] looks at the shape of a successful
    result: a result that is a tuple is returned unchanged, any other, a
    bare list in particular, as the pair [(result, None)].  The other three
    ([get_failed_e2e_testcases], [get_failed_monitor_testcases_from_xml],
    [get_junit_symptom_detection_testcase_failures]) do not look: they
    return [(result, None)] for every result, a bare list in particular. *)
Theorem extraction_result_shapes
    (MS : Type) (monitor : Monitor MS) (w : world MS) (v : pyval) (ms' : MS)
    (spy_link job_type : string) :
  (mon_call monitor "get_failed_monitor_testcases" [VStr spy_link; VStr job_type] []
     (collaborator w) = (Returned v, ms') ->
   (is_tuple v = true ->
    get_failed_monitor_testcases monitor spy_link job_type w
      = (Returned v, mkWorld (adapter w) ms'))
   /\ (is_tuple v = false ->
       get_failed_monitor_testcases monitor spy_link job_type w
         = (Returned (VTuple [v; VNone]), mkWorld (adapter w) ms')))
  /\ (mon_call monitor "get_failed_e2e_testcases" [VStr spy_link; VStr job_type] []
        (collaborator w) = (Returned v, ms') ->
      get_failed_e2e_testcases monitor spy_link job_type w
        = (Returned (VTuple [v; VNone]), mkWorld (adapter w) ms'))
  /\ (mon_call monitor "get_failed_monitor_testcases_from_xml"
        [VStr spy_link; VStr job_type] [] (collaborator w) = (Returned v, ms') ->
      get_failed_monitor_testcases_from_xml monitor spy_link job_type w
        = (Returned (VTuple [v; VNone]), mkWorld (adapter w) ms'))
  /\ (mon_call monitor "get_junit_symptom_detection_testcase_failures"
        [VStr spy_link; VStr job_type] [] (collaborator w) = (Returned v, ms') ->
      get_junit_symptom_detection_testcase_failures monitor spy_link job_type w
        = (Returned (VTuple [v; VNone]), mkWorld (adapter w) ms')).
Proof.
  pose proof (other_testcases_paired MS monitor w v ms' spy_link job_type)
    as [He2e [Hxml Hjunit]].
  split; [| split; [exact He2e | split; [exact Hxml | exact Hjunit]]].
  intros H.
  pose proof (monitor_testcases_normalized MS monitor w v ms' spy_link job_type H)
    as Hrun.
  split; intros Hv; rewrite Hv in Hrun; exact Hrun.
Qed.

Lemma extraction_result_shapes_witness :
  get_failed_monitor_testcases (Stub.returning (VList [VStr "tc1"; VStr "tc2"]))
    "link" "e2e" Stub.start
    = (Returned (VTuple [VList [VStr "tc1"; VStr "tc2"]; VNone]), Stub.start)
  /\ get_failed_monitor_testcases
       (Stub.returning (VTuple [VList [VStr "tc1"]; VStr "partial log"]))
       "link" "e2e" Stub.start
    = (Returned (VTuple [VList [VStr "tc1"]; VStr "partial log"]), Stub.start)
  /\ get_failed_monitor_testcases_from_xml
       (Stub.returning (VList [VStr "tc1"; VStr "tc2"])) "link" "e2e" Stub.start
    = (Returned (VTuple [VList [VStr "tc1"; VStr "tc2"]; VNone]), Stub.start).
Proof.
  split; [| split].
  - exact (proj2 (proj1 (extraction_result_shapes unit
                           (Stub.returning (VList [VStr "tc1"; VStr "tc2"]))
                           Stub.start (VList [VStr "tc1"; VStr "tc2"]) tt "link" "e2e")
                    eq_refl) eq_refl).
  - exact (proj1 (proj1 (extraction_result_shapes unit
                           (Stub.returning (VTuple [VList [VStr "tc1"]; VStr "partial log"]))
                           Stub.start (VTuple [VList [VStr "tc1"]; VStr "partial log"]) tt
                           "link" "e2e")
                    eq_refl) eq_refl).
  - exact (proj1 (proj2 (proj2 (extraction_result_shapes unit
                                  (Stub.returning (VList [VStr "tc1"; VStr "tc2"]))
                                  Stub.start (VList [VStr "tc1"; VStr "tc2"]) tt
                                  "link" "e2e")))
             eq_refl).
Defined.

(** C3: when the collaborator's [get_all_failed_tc] returns a dict whose
    keys "conformance", "monitor" and "symptom_detection" hold lists, the
    adapter returns the triple of that dict, the sum of the three lengths,
    and the error object with [None] under each of the three keys. *)
Theorem all_failed_tc_of_mapping
    (MS : Type) (monitor : Monitor MS) (w : world MS) (ms' : MS)
    (spylink jobtype : string) (d : list (string * pyval))
    (conformance monitor_list symptom : list pyval) :
  mon_call monitor "get_all_failed_tc" [VStr spylink; VStr jobtype] [] (collaborator w)
    = (Returned (VDict d), ms') ->
  assoc_get "conformance" d = Some (VList conformance) ->
  assoc_get "monitor" d = Some (VList monitor_list) ->
  assoc_get "symptom_detection" d = Some (VList symptom) ->
  get_all_failed_tc monitor spylink jobtype w
    = (Returned
         (VTuple [VDict d;
                  VInt (Z.of_nat (length conformance + length monitor_list
                                  + length symptom));
                  VDict [("conformance", VNone); ("monitor", VNone);
                         ("symptom_detection", VNone)]]),
       mkWorld (adapter w) ms').
Proof.
  intros H Hc Hm Hs. unfold get_all_failed_tc.
  apply try_except_returned.
  erewrite bind_returned by (apply call_returned; exact H).
  cbn [is_tuple_of_len is_tuple andb py_get].
  unfold bind, ret. rewrite Hc, Hm, Hs. cbn.
  rewrite !Nat2Z.inj_add. reflexivity.
Qed.

Lemma all_failed_tc_of_mapping_witness :
  let mapping :=
    VDict [("conformance", VList [VStr "a"]); ("monitor", VList []);
           ("symptom_detection", VList [VStr "b"; VStr "c"])] in
  get_all_failed_tc (Stub.returning mapping) "link" "e2e" Stub.start
    = (Returned
         (VTuple [mapping; VInt 3;
                  VDict [("conformance", VNone); ("monitor", VNone);
                         ("symptom_detection", VNone)]]),
       Stub.start).
Proof.
  exact (all_failed_tc_of_mapping unit
           (Stub.returning
              (VDict [("conformance", VList [VStr "a"]); ("monitor", VList []);
                      ("symptom_detection", VList [VStr "b"; VStr "c"])]))
           Stub.start tt "link" "e2e"
           [("conformance", VList [VStr "a"]); ("monitor", VList []);
            ("symptom_detection", VList [VStr "b"; VStr "c"])]
           [VStr "a"] [] [VStr "b"; VStr "c"]
           eq_refl eq_refl eq_refl eq_refl).
Defined.

(** ** The mirrored globals and the attribute fallback *)

(** C5: loading the module does not raise; if reading [monitor.PROW_URL]
    raises, the mirror [PROW_URL] is [None] afterwards, and if reading
    [monitor.final_job_list] raises, the mirror [final_job_list] is the
    empty list. *)
Theorem sync_defaults (MS : Type) (monitor : Monitor MS) (ms : MS) :
  (exists w', module_load monitor ms = (Returned tt, w'))
  /\ (forall e, mon_getattr monitor "PROW_URL" ms = Raised e ->
        PROW_URL (adapter (snd (module_load monitor ms))) = VNone)
  /\ (forall e, mon_getattr monitor "final_job_list" ms = Raised e ->
        final_job_list (adapter (snd (module_load monitor ms))) = VList []).
Proof.
  unfold module_load, _sync_module_attrs, bind, try_except, getattr_monitor,
    set_PROW_URL, set_final_job_list.
  cbn [collaborator adapter PROW_URL final_job_list].
  destruct (mon_getattr monitor "PROW_URL" ms) as [u | eu];
    rewrite ?find_handler_Exception;
    cbn [collaborator adapter PROW_URL final_job_list];
    destruct (mon_getattr monitor "final_job_list" ms) as [l | el];
    rewrite ?find_handler_Exception;
    cbn [collaborator adapter PROW_URL final_job_list snd];
    (split; [eexists; reflexivity |]);
    split; intros e He; try discriminate He; reflexivity.
Qed.

Lemma sync_defaults_witness :
  PROW_URL (adapter (snd (module_load (Stub.returning VNone) tt))) = VNone
  /\ final_job_list (adapter (snd (module_load (Stub.returning VNone) tt))) = VList [].
Proof.
  destruct (sync_defaults unit (Stub.returning VNone) tt) as [_ [Hu Hl]].
  split.
  - exact (Hu (AttributeError "PROW_URL") eq_refl).
  - exact (Hl (AttributeError "final_job_list") eq_refl).
Defined.

(** C8, as the spec words it, at a collaborator that appends to its job
    list in place: the load binds the mirror to the collaborator's list
    object; after [get_jobs] the mirror is bound to the same object, and
    what a reader finds there is no longer the empty list. *)
Lemma shared_job_list_shows_through_mirror :
  let loaded := snd (module_load Stub.sharing []) in
  let later := snd (run Stub.sharing (Get_jobs "periodic-ci-4.15") loaded) in
  final_job_list (adapter loaded) = VObj "final_job_list"
  /\ final_job_list (adapter later) = VObj "final_job_list"
  /\ seen Stub.sharing (collaborator loaded) (final_job_list (adapter loaded))
     = VList []
  /\ seen Stub.sharing (collaborator later) (final_job_list (adapter later))
     = VList [VStr "periodic-ci-4.15"]
  /\ seen Stub.sharing (collaborator later) (final_job_list (adapter later))
     <> seen Stub.sharing (collaborator loaded) (final_job_list (adapter loaded)).
Proof. repeat split. discriminate. Qed.

(** C8 (amended): the two mirrors are assigned while the module loads and
    no call of the adapter assigns to them: each function, and each
    attribute access, leaves both names bound to the objects they were
    bound to, so after any session they are bound as the load left them.
    What a reader finds in a mirror after a call is the content, by then,
    of that same object; it is what was there before when the mirror is
    not bound to an object of the collaborator ([None], a string, the
    adapter's own default list). *)
Theorem mirrors_frame
    (MS : Type) (monitor : Monitor MS) (ms : MS) (calls : list invocation) :
  (forall (i : invocation) (w : world MS),
      PROW_URL (adapter (snd (run monitor i w))) = PROW_URL (adapter w)
      /\ final_job_list (adapter (snd (run monitor i w))) = final_job_list (adapter w))
  /\ (forall (name : string) (w : world MS),
        adapter (snd (module_getattr monitor name w)) = adapter w)
  /\ adapter (run_all monitor calls (snd (module_load monitor ms)))
     = adapter (snd (module_load monitor ms))
  /\ (forall (i : invocation) (w : world MS),
        seen monitor (collaborator (snd (run monitor i w)))
          (final_job_list (adapter (snd (run monitor i w))))
        = seen monitor (collaborator (snd (run monitor i w)))
            (final_job_list (adapter w))
        /\ (is_object (final_job_list (adapter w)) = false ->
            seen monitor (collaborator (snd (run monitor i w)))
              (final_job_list (adapter (snd (run monitor i w))))
            = seen monitor (collaborator w) (final_job_list (adapter w)))
        /\ (is_object (PROW_URL (adapter w)) = false ->
            seen monitor (collaborator (snd (run monitor i w)))
              (PROW_URL (adapter (snd (run monitor i w))))
            = seen monitor (collaborator w) (PROW_URL (adapter w)))).
Proof.
  split; [| split; [| split]].
  - intros i w. rewrite (run_preserves monitor i w). split; reflexivity.
  - intros name w. apply module_getattr_preserves.
  - apply run_all_preserves.
  - intros i w. rewrite (run_preserves monitor i w).
    split; [reflexivity |].
    split; intros Hv.
    + destruct (final_job_list (adapter w)); try discriminate Hv; reflexivity.
    + destruct (PROW_URL (adapter w)); try discriminate Hv; reflexivity.
Qed.

Lemma mirrors_frame_witness :
  let loaded := snd (module_load Stub.recording []) in
  let later := snd (run Stub.recording (Get_jobs "periodic-ci-4.15") loaded) in
  seen Stub.recording (collaborator later) (final_job_list (adapter later)) = VList []
  /\ seen Stub.recording (collaborator later) (PROW_URL (adapter later))
     = VStr "https://prow.example/".
Proof.
  destruct (mirrors_frame (list pyval) Stub.recording [] [])
    as [_ [_ [_ Hseen]]].
  destruct (Hseen (Get_jobs "periodic-ci-4.15") (snd (module_load Stub.recording [])))
    as [_ [Hl Hu]].
  split.
  - exact (Hl eq_refl).
  - exact (Hu eq_refl).
Defined.

(** The other side of the frame, at a collaborator that rebinds its job
    list instead of changing it in place: after the call the mirror still
    shows the list as it was at load time, while the collaborator's own
    attribute has moved on. *)
Example mirror_goes_stale :
  let loaded := snd (module_load Stub.recording []) in
  let later := run_all Stub.recording [Get_jobs "periodic-ci-4.15"] loaded in
  final_job_list (adapter later) = VList []
  /\ mon_getattr Stub.recording "final_job_list" (collaborator later)
     = Returned (VList [VStr "periodic-ci-4.15"])
  /\ PROW_URL (adapter later) = VStr "https://prow.example/".
Proof. repeat split. Qed.

Lemma assoc_get_undefined (name : string) (ns : list (string * pyval)) :
  existsb (String.eqb name) (map fst ns) = false -> assoc_get name ns = None.
Proof.
  induction ns as [| [k v] ns IH]; simpl; intros H.
  - reflexivity.
  - apply orb_false_iff in H. destruct H as [Hk Hns].
    rewrite Hk. apply IH, Hns.
Qed.

Lemma namespace_names (g g' : globals) :
  map fst (namespace g) = map fst (namespace g').
Proof. reflexivity. Qed.

(** C9, as the spec words it, at [__dict__] and [__name__]: the source
    defines neither, yet reading them from the adapter module gives the
    adapter module's own, not the collaborator's. *)
Lemma module_own_attributes_not_forwarded :
  let w := mkWorld (mkGlobals VNone VNone) [] in
  existsb (String.eqb "__dict__") source_names = false
  /\ module_getattr Stub.sharing "__dict__" w = (Returned (VObj "__dict__"), w)
  /\ mon_getattr Stub.sharing "__dict__" (collaborator w)
     = Returned (VObj "monitor.__dict__")
  /\ existsb (String.eqb "__name__") source_names = false
  /\ module_getattr Stub.sharing "__name__" w = (Returned (VObj "__name__"), w)
  /\ mon_getattr Stub.sharing "__name__" (collaborator w) = Returned (VStr "monitor")
  /\ fst (module_getattr Stub.sharing "__dict__" w)
     <> mon_getattr Stub.sharing "__dict__" (collaborator w).
Proof. repeat split. discriminate. Qed.

(** C9 (amended): reading from the adapter module an attribute whose name
    resolves neither in the module's namespace (the source's imports,
    globals and functions and the names the import system sets) nor on the
    module type ([__dict__], [__class__], [__repr__], ...) gives what
    reading the attribute of that name from the collaborator gives, value
    or exception, at the time of the access. *)
Theorem attribute_fallback
    (MS : Type) (monitor : Monitor MS) (name : string) (w : world MS) :
  is_defined name = false ->
  module_getattr monitor name w = (mon_getattr monitor name (collaborator w), w).
Proof.
  intros H. unfold is_defined in H.
  apply orb_false_iff in H. destruct H as [Hns Hty].
  unfold module_getattr.
  rewrite assoc_get_undefined.
  - rewrite Hty. reflexivity.
  - rewrite (namespace_names (adapter w) (mkGlobals VNone VNone)). exact Hns.
Qed.

Lemma attribute_fallback_witness :
  module_getattr Stub.recording "ZONES" (mkWorld (mkGlobals VNone VNone) [])
    = (Returned (VList [VStr "syd04"]), mkWorld (mkGlobals VNone VNone) []).
Proof.
  exact (attribute_fallback (list pyval) Stub.recording "ZONES"
           (mkWorld (mkGlobals VNone VNone) []) eq_refl).
Defined.

(** A name that is bound is served from the adapter's own namespace: the
    mirror, not the collaborator's current attribute. *)
Example defined_attribute_not_forwarded :
  let loaded := snd (module_load Stub.recording []) in
  let later := run_all Stub.recording [Get_jobs "periodic-ci-4.15"] loaded in
  module_getattr Stub.recording "final_job_list" later = (Returned (VList []), later).
Proof. reflexivity. Qed.

(** ** The adapter as a function of the collaborator's answer *)

Section Answers.

Context {MS : Type}.
Variable monitor : Monitor MS.

Lemma all_failed_tc_when_returned (spylink jobtype : string) (w : world MS)
    (v : pyval) (ms' : MS) :
  mon_call monitor "get_all_failed_tc" [VStr spylink; VStr jobtype] [] (collaborator w)
    = (Returned v, ms') ->
  get_all_failed_tc monitor spylink jobtype w
    = (Returned (all_failed_tc_value v), mkWorld (adapter w) ms').
Proof.
  intros H. unfold get_all_failed_tc, all_failed_tc_value, try_except.
  erewrite bind_returned by (apply call_returned; exact H).
  destruct (is_tuple_of_len v 3); [reflexivity |].
  destruct v; try reflexivity.
  unfold bind, py_get, py_len, ret, raise, get_or_empty.
  destruct (seq_length _); [| reflexivity].
  destruct (seq_length _); [| reflexivity].
  destruct (seq_length _); reflexivity.
Qed.

(** The collaborator's call returned: what each function returns. *)
Lemma run_when_returned (i : invocation) (w : world MS) (v : pyval) (ms' : MS) :
  forwarded monitor i (collaborator w) = (Returned v, ms') ->
  run monitor i w = (Returned (on_success i v), mkWorld (adapter w) ms').
Proof.
  unfold forwarded. intros H.
  destruct i; cbn [name_of args_of kwargs_of] in H; cbn [run on_success];
    try (apply all_failed_tc_when_returned; exact H);
    autounfold with adapter;
    first [ apply call_returned; exact H
          | apply try_call_returned; exact H
          | apply try_except_returned;
            erewrite bind_returned by (apply call_returned; exact H);
            try destruct (is_tuple v); reflexivity ].
Qed.

(** Every triple the adapter builds has three components. *)
Lemma all_failed_tc_value_triple (v : pyval) :
  is_tuple_of_len (all_failed_tc_value v) 3 = true.
Proof.
  unfold all_failed_tc_value.
  destruct (is_tuple_of_len v 3) eqn:Hv; [exact Hv |].
  destruct v; try reflexivity.
  destruct (seq_length _); [| reflexivity].
  destruct (seq_length _); [| reflexivity].
  destruct (seq_length _); reflexivity.
Qed.

End Answers.

(** ** Beyond the failure table: success, totality, composition *)

(** X1: a function that does not reshape results (all but the four
    testcase extractions and [get_all_failed_tc]) returns what the
    collaborator returned, unchanged, whatever value that is. *)
Theorem success_passes_through
    (MS : Type) (monitor : Monitor MS) (i : invocation) (w : world MS)
    (v : pyval) (ms' : MS) :
  reshapes i = false ->
  forwarded monitor i (collaborator w) = (Returned v, ms') ->
  run monitor i w = (Returned v, mkWorld (adapter w) ms').
Proof.
  intros Hr H. rewrite (run_when_returned monitor i w v ms' H).
  destruct i; try discriminate Hr; reflexivity.
Qed.

Lemma success_passes_through_witness :
  run (Stub.returning (VObj "date")) (Parse_job_date "2024-05-01") Stub.start
    = (Returned (VObj "date"), Stub.start)
  /\ run (Stub.returning (VBool true)) (Check_if_sensitive_info_exposed "link") Stub.start
    = (Returned (VBool true), Stub.start).
Proof.
  split.
  - exact (success_passes_through unit (Stub.returning (VObj "date"))
             (Parse_job_date "2024-05-01") Stub.start (VObj "date") tt eq_refl eq_refl).
  - exact (success_passes_through unit (Stub.returning (VBool true))
             (Check_if_sensitive_info_exposed "link") Stub.start (VBool true) tt
             eq_refl eq_refl).
Defined.

Lemma run_collaborator_state
    (MS : Type) (monitor : Monitor MS) (i : invocation) (w : world MS) :
  collaborator (snd (run monitor i w)) = snd (forwarded monitor i (collaborator w)).
Proof.
  destruct (forwarded monitor i (collaborator w)) as [[v | e] ms'] eqn:H.
  - rewrite (run_when_returned monitor i w v ms' H). reflexivity.
  - rewrite (run_when_raised monitor i w H). reflexivity.
Qed.

(** X2: every function makes the one call to the collaborator's function
    of the same name with the arguments it was given and nothing more (no
    retry, no second call in a handler): the collaborator is left in the
    state that one call leaves, also when the call fails; so a session
    through the adapter takes the collaborator through the states the
    direct calls would. *)
Theorem one_collaborator_call
    (MS : Type) (monitor : Monitor MS) (calls : list invocation) (w : world MS) :
  (forall (i : invocation) (w0 : world MS),
      collaborator (snd (run monitor i w0))
      = snd (forwarded monitor i (collaborator w0)))
  /\ collaborator (run_all monitor calls w)
     = fold_left (fun ms i => snd (forwarded monitor i ms)) calls (collaborator w).
Proof.
  split.
  - apply run_collaborator_state.
  - revert w. induction calls as [| i rest IH]; intros w; simpl.
    + reflexivity.
    + rewrite IH, run_collaborator_state. reflexivity.
Qed.

(** X3: a function with a [try], the sensitive-info check apart, does not
    raise when the collaborator's call returns or raises an exception
    derived from [Exception]: not on the failure, and not on a returned
    value of a shape the function did not expect.  (What is not derived
    from [Exception], [KeyboardInterrupt] or [SystemExit], no clause
    catches; such exceptions are outside [exc].) *)
Theorem catching_functions_never_raise
    (MS : Type) (monitor : Monitor MS) (i : invocation) (w : world MS) :
  forwards_only i = false ->
  is_sensitive_check i = false ->
  is_raised (fst (run monitor i w)) = false.
Proof.
  intros Hf Hs.
  destruct (forwarded monitor i (collaborator w)) as [[v | e] ms'] eqn:H.
  - rewrite (run_when_returned monitor i w v ms' H). reflexivity.
  - rewrite (run_when_raised monitor i w H), Hf, Hs. reflexivity.
Qed.

Lemma catching_functions_never_raise_witness :
  is_raised (fst (run (Stub.returning (VInt 7)) (Get_all_failed_tc "link" "e2e")
                    Stub.start)) = false
  /\ is_raised (fst (run (Stub.raising (TypeError "boom")) (Get_jobs "link")
                       Stub.start)) = false.
Proof.
  split.
  - exact (catching_functions_never_raise unit (Stub.returning (VInt 7))
             (Get_all_failed_tc "link" "e2e") Stub.start eq_refl eq_refl).
  - exact (catching_functions_never_raise unit (Stub.raising (TypeError "boom"))
             (Get_jobs "link") Stub.start eq_refl eq_refl).
Defined.

(** X4: [get_all_failed_tc] returns a tuple of three components whenever
    the collaborator's call returns, whatever the value, or raises an
    exception derived from [Exception]. *)
Theorem all_failed_tc_always_triple
    (MS : Type) (monitor : Monitor MS) (spylink jobtype : string) (w : world MS) :
  exists (v : pyval) (w' : world MS),
    get_all_failed_tc monitor spylink jobtype w = (Returned v, w')
    /\ is_tuple_of_len v 3 = true.
Proof.
  destruct (mon_call monitor "get_all_failed_tc" [VStr spylink; VStr jobtype] []
              (collaborator w)) as [[v | e] ms'] eqn:H.
  - rewrite (all_failed_tc_when_returned monitor spylink jobtype w v ms' H).
    eexists. eexists. split; [reflexivity | apply all_failed_tc_value_triple].
  - change (get_all_failed_tc monitor spylink jobtype w)
      with (run monitor (Get_all_failed_tc spylink jobtype) w).
    rewrite (run_when_raised monitor (Get_all_failed_tc spylink jobtype) w H).
    eexists. eexists. split; [reflexivity |].
    destruct (kind_of e); reflexivity.
Qed.

(** X5: in the dict the collaborator returns, a key that is missing counts
    as an empty list, and an entry that is a list, a tuple or a dict is
    counted by the number of its elements: when each of the three entries
    is missing or such a container, the count is the sum of the three
    lengths, is not negative, and the error object holds [None] three
    times. *)
Theorem all_failed_tc_counts_with_defaults
    (MS : Type) (monitor : Monitor MS) (w : world MS) (ms' : MS)
    (spylink jobtype : string) (d : list (string * pyval)) (n1 n2 n3 : Z) :
  mon_call monitor "get_all_failed_tc" [VStr spylink; VStr jobtype] [] (collaborator w)
    = (Returned (VDict d), ms') ->
  container_length (get_or_empty "conformance" d) = Some n1 ->
  container_length (get_or_empty "monitor" d) = Some n2 ->
  container_length (get_or_empty "symptom_detection" d) = Some n3 ->
  get_all_failed_tc monitor spylink jobtype w
    = (Returned (VTuple [VDict d; VInt (n1 + n2 + n3); error_object_of VNone]),
       mkWorld (adapter w) ms')
  /\ 0 <= n1 + n2 + n3.
Proof.
  intros H H1 H2 H3.
  assert (Hlen : forall v n, container_length v = Some n ->
                             seq_length v = Some n /\ 0 <= n).
  { intros v n Hv. destruct v; inversion Hv; split; try reflexivity; lia. }
  destruct (Hlen _ _ H1) as [L1 P1].
  destruct (Hlen _ _ H2) as [L2 P2].
  destruct (Hlen _ _ H3) as [L3 P3].
  rewrite (all_failed_tc_when_returned monitor spylink jobtype w (VDict d) ms' H).
  unfold all_failed_tc_value. cbn [is_tuple_of_len is_tuple andb].
  rewrite L1, L2, L3. split; [reflexivity | lia].
Qed.

Lemma all_failed_tc_counts_with_defaults_witness :
  get_all_failed_tc
    (Stub.returning (VDict [("monitor", VTuple [VStr "a"; VStr "b"])]))
    "link" "e2e" Stub.start
  = (Returned (VTuple [VDict [("monitor", VTuple [VStr "a"; VStr "b"])]; VInt 2;
                       error_object_of VNone]),
     Stub.start).
Proof.
  exact (proj1 (all_failed_tc_counts_with_defaults unit
                  (Stub.returning (VDict [("monitor", VTuple [VStr "a"; VStr "b"])]))
                  Stub.start tt "link" "e2e"
                  [("monitor", VTuple [VStr "a"; VStr "b"])] 0 2 0
                  eq_refl eq_refl eq_refl eq_refl)).
Defined.

(** X6: when the collaborator's [get_all_failed_tc] succeeds with a plain
    value that has no [get] ([None], a boolean, a number, a string, a list,
    a tuple of another length than three), or with a dict whose three
    entries are plain values and one of them has no [len] ([None], a
    boolean, a number), the adapter drops the answer and returns the triple
    of its catch-all clause, the one it gives for an unclassified
    failure. *)
Theorem all_failed_tc_malformed_answer
    (MS : Type) (monitor : Monitor MS) (w : world MS) (ms' : MS)
    (spylink jobtype : string) (v : pyval) :
  mon_call monitor "get_all_failed_tc" [VStr spylink; VStr jobtype] [] (collaborator w)
    = (Returned v, ms') ->
  is_tuple_of_len v 3 = false ->
  (lacks_get v = true
   \/ exists d,
        v = VDict d
        /\ (forall k, In k ["conformance"; "monitor"; "symptom_detection"] ->
                      is_object (get_or_empty k d) = false)
        /\ (exists k, In k ["conformance"; "monitor"; "symptom_detection"]
                      /\ lacks_len (get_or_empty k d) = true)) ->
  get_all_failed_tc monitor spylink jobtype w
    = (Returned (VTuple [VDict []; VInt 0;
                         error_object_of (VStr "Test summary file not found")]),
       mkWorld (adapter w) ms').
Proof.
  intros H Ht Hv.
  rewrite (all_failed_tc_when_returned monitor spylink jobtype w v ms' H).
  unfold all_failed_tc_value. rewrite Ht.
  destruct Hv as [Hg | [d [-> [_ [k [Hk Hl]]]]]].
  - destruct v; try discriminate Hg; reflexivity.
  - assert (Hnone : seq_length (get_or_empty k d) = None).
    { destruct (get_or_empty k d); try discriminate Hl; reflexivity. }
    simpl in Hk.
    destruct Hk as [<- | [<- | [<- | []]]]; rewrite Hnone;
      repeat (destruct (seq_length _)); reflexivity.
Qed.

Lemma all_failed_tc_malformed_answer_witness :
  get_all_failed_tc
    (Stub.returning (VDict [("conformance", VList [VStr "a"]); ("monitor", VNone)]))
    "link" "e2e" Stub.start
  = (Returned (VTuple [VDict []; VInt 0;
                       error_object_of (VStr "Test summary file not found")]),
     Stub.start).
Proof.
  apply (all_failed_tc_malformed_answer unit
           (Stub.returning (VDict [("conformance", VList [VStr "a"]); ("monitor", VNone)]))
           Stub.start tt "link" "e2e"
           (VDict [("conformance", VList [VStr "a"]); ("monitor", VNone)])
           eq_refl eq_refl).
  right. exists [("conformance", VList [VStr "a"]); ("monitor", VNone)].
  split; [reflexivity | split].
  - intros k [<- | [<- | [<- | []]]]; reflexivity.
  - exists "monitor". split; [simpl; auto | reflexivity].
Defined.

(** X7: when the collaborator's call returns or raises an exception
    derived from [Exception], the three extraction functions that pair
    without looking ([get_failed_monitor_testcases_from_xml],
    [get_failed_e2e_testcases],
    [get_junit_symptom_detection_testcase_failures]) return a pair, and its
    second component is [None] exactly when the call returned; on failure
    the first component is the empty list. *)
Theorem error_field_tells_failure
    (MS : Type) (monitor : Monitor MS) (i : invocation) (w : world MS) :
  pairs_result i = true ->
  exists a b : pyval,
    fst (run monitor i w) = Returned (VTuple [a; b])
    /\ (b = VNone <-> is_raised (fst (forwarded monitor i (collaborator w))) = false)
    /\ (b <> VNone -> a = VList []).
Proof.
  intros Hp.
  destruct (forwarded monitor i (collaborator w)) as [[v | e] ms'] eqn:H.
  - rewrite (run_when_returned monitor i w v ms' H).
    exists v, VNone.
    destruct i; try discriminate Hp; cbn; repeat split; congruence.
  - rewrite (run_when_raised monitor i w H).
    destruct i; try discriminate Hp; cbn;
      (eexists; eexists; split; [reflexivity |]);
      (split; [split; intros Hx; discriminate Hx | reflexivity]).
Qed.

Lemma error_field_tells_failure_witness :
  exists a b : pyval,
    fst (run (Stub.raising Stub.timeout) (Get_failed_e2e_testcases "link" "e2e")
           Stub.start) = Returned (VTuple [a; b])
    /\ b <> VNone.
Proof.
  destruct (error_field_tells_failure unit (Stub.raising Stub.timeout)
              (Get_failed_e2e_testcases "link" "e2e") Stub.start eq_refl)
    as [a [b [Hrun [Hiff _]]]].
  exists a, b. split; [exact Hrun |].
  intros Hb. apply Hiff in Hb. discriminate Hb.
Defined.

(** X8: [get_failed_monitor_testcases] hands on a tuple of any length as
    it is, and pairs with [None] any result that is not a tuple, a list or
    not; either way what it returns on success is a tuple. *)
Theorem monitor_testcases_success_shape
    (MS : Type) (monitor : Monitor MS) (w : world MS) (v : pyval) (ms' : MS)
    (spy_link job_type : string) :
  mon_call monitor "get_failed_monitor_testcases" [VStr spy_link; VStr job_type] []
    (collaborator w) = (Returned v, ms') ->
  exists r : pyval,
    get_failed_monitor_testcases monitor spy_link job_type w
      = (Returned r, mkWorld (adapter w) ms')
    /\ is_tuple r = true
    /\ (is_tuple v = true -> r = v)
    /\ (is_tuple v = false -> r = VTuple [v; VNone]).
Proof.
  intros H.
  exists (if is_tuple v then v else VTuple [v; VNone]).
  split.
  - exact (run_when_returned monitor (Get_failed_monitor_testcases spy_link job_type)
             w v ms' H).
  - destruct (is_tuple v) eqn:Hv; repeat split; congruence.
Qed.

Lemma monitor_testcases_success_shape_witness :
  exists r : pyval,
    get_failed_monitor_testcases
      (Stub.returning (VTuple [VList []; VStr "note"; VInt 3])) "link" "e2e" Stub.start
      = (Returned r, Stub.start)
    /\ r = VTuple [VList []; VStr "note"; VInt 3].
Proof.
  destruct (monitor_testcases_success_shape unit
              (Stub.returning (VTuple [VList []; VStr "note"; VInt 3]))
              Stub.start (VTuple [VList []; VStr "note"; VInt 3]) tt "link" "e2e"
              eq_refl)
    as [r [Hrun [_ [Hsame _]]]].
  exists r. split; [exact Hrun | exact (Hsame eq_refl)].
Defined.

(** X9: the value a catching function returns for a failure (the
    sensitive-info check, which raises, is left aside) depends on the kind
    of the exception alone: two failures of one kind give the same result,
    whatever their messages and, for unclassified ones, their classes. *)
Theorem failure_answer_depends_on_kind_only
    (MS : Type) (m1 m2 : Monitor MS) (i : invocation) (w : world MS)
    (e1 e2 : exc) (ms' : MS) :
  forwards_only i = false ->
  is_sensitive_check i = false ->
  kind_of e1 = kind_of e2 ->
  forwarded m1 i (collaborator w) = (Raised e1, ms') ->
  forwarded m2 i (collaborator w) = (Raised e2, ms') ->
  run m1 i w = run m2 i w
  /\ is_raised (fst (run m1 i w)) = false.
Proof.
  intros Hf Hs Hk H1 H2.
  rewrite (run_when_raised m1 i w H1), (run_when_raised m2 i w H2), Hf, Hs, Hk.
  split; reflexivity.
Qed.

Lemma failure_answer_depends_on_kind_only_witness :
  run (Stub.raising (mkExc (BuiltinError "KeyError") "zone"))
      (Get_failed_e2e_testcases "link" "e2e") Stub.start
  = run (Stub.raising (mkExc (BuiltinError "OSError") "disk full"))
      (Get_failed_e2e_testcases "link" "e2e") Stub.start.
Proof.
  exact (proj1 (failure_answer_depends_on_kind_only unit
                  (Stub.raising (mkExc (BuiltinError "KeyError") "zone"))
                  (Stub.raising (mkExc (BuiltinError "OSError") "disk full"))
                  (Get_failed_e2e_testcases "link" "e2e") Stub.start
                  (mkExc (BuiltinError "KeyError") "zone")
                  (mkExc (BuiltinError "OSError") "disk full") tt
                  eq_refl eq_refl eq_refl eq_refl eq_refl)).
Defined.

(** X10: outside the three pairing functions a failure cannot be told from
    a success: if a function answers a failed call with the value [v], it
    answers with the same [v] a collaborator that returns [v]. *)
Theorem failure_looks_like_success
    (MS : Type) (m1 m2 : Monitor MS) (i : invocation) (w : world MS)
    (e : exc) (v : pyval) (ms' : MS) :
  pairs_result i = false ->
  forwarded m1 i (collaborator w) = (Raised e, ms') ->
  fst (run m1 i w) = Returned v ->
  forwarded m2 i (collaborator w) = (Returned v, ms') ->
  run m2 i w = run m1 i w.
Proof.
  intros Hp H1 Hv H2.
  rewrite (run_when_returned m2 i w v ms' H2).
  rewrite (run_when_raised m1 i w H1) in Hv |- *.
  destruct (forwards_only i); [discriminate Hv |].
  destruct (is_sensitive_check i); [discriminate Hv |].
  cbn [fst] in Hv. injection Hv as <-.
  destruct i; try discriminate Hp; try reflexivity;
    destruct (kind_of e); reflexivity.
Qed.

Lemma failure_looks_like_success_witness :
  run (Stub.returning (VStr "Request timed out")) (Fetch_build_time "build-log.txt")
      Stub.start
  = run (Stub.raising Stub.timeout) (Fetch_build_time "build-log.txt") Stub.start.
Proof.
  exact (failure_looks_like_success unit (Stub.raising Stub.timeout)
           (Stub.returning (VStr "Request timed out"))
           (Fetch_build_time "build-log.txt") Stub.start Stub.timeout
           (VStr "Request timed out") tt eq_refl eq_refl eq_refl eq_refl).
Defined.

(** X11: from the string of [_err_str_from_exc] a caller recovers a
    timeout and a fetch failure, and nothing more: a parse failure and an
    unclassified one both read "ERROR". *)
Theorem err_str_tells_kind (e : exc) :
  (_err_str_from_exc e = "Request timed out" <-> kind_of e = TimeoutFailure)
  /\ (_err_str_from_exc e = "Error while sending request to url"
      <-> kind_of e = FetchFailure)
  /\ (_err_str_from_exc e = "ERROR"
      <-> kind_of e = ParseFailure \/ kind_of e = UnclassifiedFailure).
Proof.
  destruct e as [[] msg]; cbn; repeat split; intros H;
    try discriminate H; try reflexivity; auto;
    destruct H as [H | H]; discriminate H.
Qed.

(** X15: the [RuntimeError] that [check_if_sensitive_info_exposed] raises
    is an unclassified failure whatever the collaborator raised: mapped
    through [_err_str_from_exc] once more it reads "ERROR", also for a
    timeout; its message is the fixed prefix followed by the mapped string
    and nothing of the original message. *)
Theorem reraised_error_is_unclassified
    (MS : Type) (monitor : Monitor MS) (spy_link : string) (w : world MS)
    (e : exc) (ms' : MS) :
  mon_call monitor "check_if_sensitive_info_exposed" [VStr spy_link] [] (collaborator w)
    = (Raised e, ms') ->
  exists x : exc,
    fst (check_if_sensitive_info_exposed monitor spy_link w) = Raised x
    /\ kind_of x = UnclassifiedFailure
    /\ _err_str_from_exc x = "ERROR"
    /\ exc_msg x = "Error in check_if_sensitive_info_exposed: " ++ _err_str_from_exc e.
Proof.
  intros H.
  change (check_if_sensitive_info_exposed monitor spy_link w)
    with (run monitor (Check_if_sensitive_info_exposed spy_link) w).
  rewrite (run_when_raised monitor (Check_if_sensitive_info_exposed spy_link) w H).
  eexists. split; [reflexivity |].
  split; [reflexivity |]. split; [reflexivity |].
  rewrite (err_str_generic e). reflexivity.
Qed.

Lemma reraised_error_is_unclassified_witness :
  exists x : exc,
    fst (check_if_sensitive_info_exposed (Stub.raising Stub.timeout) "link" Stub.start)
      = Raised x
    /\ _err_str_from_exc x = "ERROR".
Proof.
  destruct (reraised_error_is_unclassified unit (Stub.raising Stub.timeout) "link"
              Stub.start Stub.timeout tt eq_refl)
    as [x [Hrun [_ [Hstr _]]]].
  exists x. split; [exact Hrun | exact Hstr].
Defined.

(** ** Loading, re-syncing and reading attributes *)

Lemma sync_result (MS : Type) (monitor : Monitor MS) (w : world MS) :
  _sync_module_attrs monitor w
  = (Returned tt,
     mkWorld
       (mkGlobals
          (match mon_getattr monitor "PROW_URL" (collaborator w) with
           | Returned u => u
           | Raised _ => VNone
           end)
          (match mon_getattr monitor "final_job_list" (collaborator w) with
           | Returned l => l
           | Raised _ => VList []
           end))
       (collaborator w)).
Proof.
  unfold _sync_module_attrs, bind, try_except, getattr_monitor,
    set_PROW_URL, set_final_job_list.
  destruct (mon_getattr monitor "PROW_URL" (collaborator w)) as [u | eu];
    rewrite ?find_handler_Exception;
    cbn [collaborator adapter PROW_URL final_job_list];
    destruct (mon_getattr monitor "final_job_list" (collaborator w)) as [l | el];
    rewrite ?find_handler_Exception;
    reflexivity.
Qed.

(** X12: loading the module mirrors each attribute on its own: a mirror
    holds the collaborator's attribute where reading it succeeds, its
    default where it fails, whatever happens with the other one; and the
    load leaves the collaborator's state as it was. *)
Theorem load_mirrors_each_attribute (MS : Type) (monitor : Monitor MS) (ms : MS) :
  (forall u, mon_getattr monitor "PROW_URL" ms = Returned u ->
     PROW_URL (adapter (snd (module_load monitor ms))) = u)
  /\ (forall l, mon_getattr monitor "final_job_list" ms = Returned l ->
        final_job_list (adapter (snd (module_load monitor ms))) = l)
  /\ collaborator (snd (module_load monitor ms)) = ms.
Proof.
  unfold module_load. rewrite sync_result. cbn.
  repeat split.
  - intros u Hu. rewrite Hu. reflexivity.
  - intros l Hl. rewrite Hl. reflexivity.
Qed.

Lemma load_mirrors_each_attribute_witness :
  PROW_URL (adapter (snd (module_load Stub.recording [VStr "job-0"])))
    = VStr "https://prow.example/"
  /\ final_job_list (adapter (snd (module_load Stub.recording [VStr "job-0"])))
    = VList [VStr "job-0"].
Proof.
  destruct (load_mirrors_each_attribute (list pyval) Stub.recording [VStr "job-0"])
    as [Hu [Hl _]].
  split.
  - exact (Hu (VStr "https://prow.example/") eq_refl).
  - exact (Hl (VList [VStr "job-0"]) eq_refl).
Defined.

(** X13: [_sync_module_attrs] overwrites both globals whatever they held:
    called again at any time it gives the state a fresh load would give
    with the collaborator as it is then, so it refreshes a stale mirror;
    and calling it twice in a row is calling it once. *)
Theorem resync_is_a_fresh_load (MS : Type) (monitor : Monitor MS) (w : world MS) :
  _sync_module_attrs monitor w = module_load monitor (collaborator w)
  /\ _sync_module_attrs monitor (snd (_sync_module_attrs monitor w))
     = _sync_module_attrs monitor w.
Proof.
  unfold module_load. rewrite !sync_result. split; reflexivity.
Qed.

(** The stale mirror of [mirror_goes_stale], refreshed. *)
Example resync_after_session :
  let loaded := snd (module_load Stub.recording []) in
  let later := run_all Stub.recording [Get_jobs "periodic-ci-4.15"] loaded in
  final_job_list (adapter (snd (_sync_module_attrs Stub.recording later)))
  = VList [VStr "periodic-ci-4.15"].
Proof. reflexivity. Qed.
